(** * sphinxcontrib.ditaa: a shallow embedding of [src/sphinxcontrib/ditaa.py]

    The module is glue code around the Python runtime, the file system and
    an external process.  The embedding keeps the control flow of the
    source (the order of the checks, the [try]/[except]/[finally] nesting)
    and threads the mutable objects the source touches through an explicit
    state:

    - text is a list of Unicode code points, bytes are a list of integers
      in [0, 256);
    - [str.encode('utf-8')] is written out, the other library functions the
      source calls (sha1, [repr], [os.path.join], docutils' [starttag] ...)
      are the fields of a [Host] structure;
    - the file system, the builder's attributes, the translator's [body]
      and a log of the [Popen] calls form the [world];
    - how the operating system answers a [Popen] call is the [OS] oracle.

    File-system calls the source does not guard ([ensuredir],
    [NamedTemporaryFile], [write], [close], [os.unlink]) are taken to
    succeed. *)

From Stdlib Require Import ZArith String Ascii.
From stdpp Require Import base option list gmap.

Local Open Scope Z_scope.

(** ** Text and bytes *)

(** A Python 3 [str]: the sequence of its code points. *)
Abbreviation pystr := (list Z).

(** A Python [bytes] object. *)
Abbreviation bytes := (list Z).

(** String literals of the source, written as Rocq strings. *)
Definition lit (s : string) : pystr :=
  map (fun a => Z.of_N (N_of_ascii a)) (list_ascii_of_string s).

(** The characters the source's literals need and a Rocq string cannot hold
    conveniently. *)
Definition NL : pystr := [10].
Definition DQUOTE : pystr := [34].

(** [sep.join(parts)]. *)
Fixpoint join (sep : pystr) (parts : list pystr) : pystr :=
  match parts with
  | [] => []
  | [p] => p
  | p :: rest => p ++ sep ++ join sep rest
  end.

(** [needle in hay] for strings: [needle] occurs as a contiguous run. *)
Definition contains (needle hay : pystr) : Prop :=
  ∃ before after, hay = before ++ needle ++ after.

(** The code points [str.isspace] accepts. *)
Definition isspace (c : Z) : bool :=
  ((9 <=? c) && (c <=? 13)) || ((28 <=? c) && (c <=? 32))
  || (c =? 133) || (c =? 160) || (c =? 5760)
  || ((8192 <=? c) && (c <=? 8202))
  || (c =? 8232) || (c =? 8233) || (c =? 8239) || (c =? 8287) || (c =? 12288).

(** [not s.strip()]: stripping white space from both ends leaves nothing
    exactly when every character is white space. *)
Definition strip_is_empty (s : pystr) : bool := forallb isspace s.

(** ** [str.encode('utf-8')] *)

(** One code point.  Surrogates and values outside the Unicode range have
    no encoding: Python raises [UnicodeEncodeError]. *)
Definition encode_cp (c : Z) : option bytes :=
  if c <? 0 then None
  else if c <? 0x80 then Some [c]
  else if c <? 0x800 then
    Some [Z.lor 0xC0 (Z.shiftr c 6); Z.lor 0x80 (Z.land c 0x3F)]
  else if c <? 0x10000 then
    if (0xD800 <=? c) && (c <=? 0xDFFF) then None
    else Some [Z.lor 0xE0 (Z.shiftr c 12);
               Z.lor 0x80 (Z.land (Z.shiftr c 6) 0x3F);
               Z.lor 0x80 (Z.land c 0x3F)]
  else if c <? 0x110000 then
    Some [Z.lor 0xF0 (Z.shiftr c 18);
          Z.lor 0x80 (Z.land (Z.shiftr c 12) 0x3F);
          Z.lor 0x80 (Z.land (Z.shiftr c 6) 0x3F);
          Z.lor 0x80 (Z.land c 0x3F)]
  else None.

Fixpoint encode_utf8 (s : pystr) : option bytes :=
  match s with
  | [] => Some []
  | c :: rest =>
      match encode_cp c, encode_utf8 rest with
      | Some b, Some bs => Some (b ++ bs)
      | _, _ => None
      end
  end.

(** [a + b] on two encoded operands: the sum exists when both do. *)
Definition bytes_add (a b : option bytes) : option bytes :=
  match a, b with
  | Some x, Some y => Some (x ++ y)
  | _, _ => None
  end.

(** ** Exceptions *)

(** Values of [sphinx.util.osutil]'s [ENOENT], [EPIPE], [EINVAL]. *)
Definition ENOENT : Z := 2.
Definition EINVAL : Z := 22.
Definition EPIPE : Z := 32.

(** An exception raised by an operating-system call.  What an [except]
    clause sees of it is which of the two class names it is an instance of
    and its [errno].  Since Python 3.3 [IOError] is another name of
    [OSError], so every such exception is an instance of both; before, the
    two classes were distinct. *)
Record env_error := EnvError {
  inst_OSError : bool;
  inst_IOError : bool;
  errno : Z
}.

Inductive py_exc :=
  | EnvironmentExc (e : env_error)
  | UnicodeEncodeError
  | UnicodeDecodeError
  | DitaaError (msg : pystr)
  | SkipNode
  | OtherExc (name : pystr).

(** The outcome of a call: a value or a raised exception. *)
Inductive result (A : Type) :=
  | Ret (a : A)
  | Raise (e : py_exc).
Arguments Ret {A} a.
Arguments Raise {A} e.

(** ** The runtime the module runs on *)

Class Host := {
  (** [sha(data).hexdigest()] *)
  sha_hexdigest : bytes → pystr;
  (** [repr] of a [str] *)
  repr_str : pystr → pystr;
  (** [os.path.join] of two components and [os.path.dirname] *)
  path_join : pystr → pystr → pystr;
  path_dirname : pystr → pystr;
  (** [data.decode(sys_encoding)]; [None] is [UnicodeDecodeError] *)
  sys_decode : bytes → option pystr;
  (** the UTF-8 reader of [codecs.open(filename, 'r', 'utf-8')] *)
  codec_utf8_decode : bytes → option pystr;
  (** docutils' [HTMLTranslator.starttag(node, tagname, CLASS=cls)]: of the
      node it consults the ['ids'] and ['classes'] attributes *)
  starttag : list pystr → list pystr → pystr → pystr → pystr;
  (** [HTMLTranslator.encode]: HTML escaping of text *)
  html_encode : pystr → pystr;
  (** what visiting a [system_message(info, source=...)] appends to the
      translator's body *)
  system_message_markup : pystr → pystr → list pystr;
  (** [env.relfn2path] *)
  relfn2path : pystr → pystr * pystr
}.

(** ** Subprocesses *)

(** A launched process, as far as the module observes it. *)
Record process := Process {
  (** [p.communicate(input)]: the captured (stdout, stderr) or an error *)
  proc_communicate : bytes → result (bytes * bytes);
  (** [p.stdout.read()] and [p.stderr.read()] after a failed [communicate] *)
  proc_stdout_read : bytes;
  proc_stderr_read : bytes;
  (** [p.returncode] once the process has been waited for *)
  proc_returncode : Z;
  (** the files the process leaves behind *)
  proc_writes : gmap pystr bytes
}.

Inductive launch :=
  | LaunchFailed (e : py_exc)
  | Launched (p : process).

(** ** The mutable world *)

Record world := World {
  (** regular files and their contents *)
  w_files : gmap pystr bytes;
  (** directories made by [ensuredir] *)
  w_dirs : gset pystr;
  (** [hasattr(self.builder, '_ditaa_warned')] *)
  w_warned : bool;
  (** messages passed to [self.builder.warn], oldest first *)
  w_warnings : list pystr;
  (** [self.body] of the translator *)
  w_body : list pystr;
  (** argument vector of every [Popen] call, launched or not, oldest first *)
  w_spawned : list (list pystr);
  (** names handed out by [NamedTemporaryFile], oldest first *)
  w_temps : list pystr;
  (** warnings given to the document's reporter, with their line *)
  w_reported : list (pystr * Z);
  (** files registered with [env.note_dependency] *)
  w_dependencies : list pystr
}.

(** The read-only part of [self.builder]. *)
Record builder := Builder {
  imgpath : pystr;
  outdir : pystr;
  config_ditaa : pystr;
  config_ditaa_args : list pystr
}.

(** How the operating system answers. *)
Class OS := {
  (** the name [NamedTemporaryFile(suffix='.ditaa')] picks *)
  os_tempname : world → pystr;
  (** [Popen(argv, stdout=PIPE, stdin=PIPE, stderr=PIPE)] *)
  os_popen : world → list pystr → launch
}.

(** ** A state and exception monad for the module's procedures *)

Definition M (A : Type) : Type := world → result A * world.

Definition ret {A} (a : A) : M A := fun w => (Ret a, w).

Definition raise {A} (e : py_exc) : M A := fun w => (Raise e, w).

Definition bind {A B} (m : M A) (k : A → M B) : M B :=
  fun w =>
    match m w with
    | (Ret a, w1) => k a w1
    | (Raise e, w1) => (Raise e, w1)
    end.

Definition gets {A} (f : world → A) : M A := fun w => (Ret (f w), w).

Definition modify (f : world → world) : M unit := fun w => (Ret tt, f w).

(** [try: body  except ...: handler].  [handler e] is [None] when no
    [except] clause matches [e]. *)
Definition try_except {A} (body : M A) (handler : py_exc → option (M A)) : M A :=
  fun w =>
    match body w with
    | (Ret a, w1) => (Ret a, w1)
    | (Raise e, w1) =>
        match handler e with
        | Some h => h w1
        | None => (Raise e, w1)
        end
    end.

(** [try: body  finally: cleanup].  The clean-up runs on every way out of
    the body; an exception of the clean-up replaces the body's outcome. *)
Definition try_finally {A} (body : M A) (cleanup : M unit) : M A :=
  fun w =>
    match body w with
    | (r, w1) =>
        match cleanup w1 with
        | (Ret _, w2) => (r, w2)
        | (Raise e, w2) => (Raise e, w2)
        end
    end.

(** The monad operations are stdpp's [mret] and [mbind], so that procedures
    read [x ← action; rest] and [action;; rest]. *)
#[global] Instance M_ret : MRet M := @ret.
#[global] Instance M_bind : MBind M := fun A B k m => bind m k.

(** ** World updates *)

Definition set_files (f : gmap pystr bytes → gmap pystr bytes) (w : world) : world :=
  World (f (w_files w)) (w_dirs w) (w_warned w) (w_warnings w) (w_body w)
        (w_spawned w) (w_temps w) (w_reported w) (w_dependencies w).

Definition add_dir (d : pystr) (w : world) : world :=
  World (w_files w) ({[d]} ∪ w_dirs w) (w_warned w) (w_warnings w) (w_body w)
        (w_spawned w) (w_temps w) (w_reported w) (w_dependencies w).

Definition set_warned (w : world) : world :=
  World (w_files w) (w_dirs w) true (w_warnings w) (w_body w)
        (w_spawned w) (w_temps w) (w_reported w) (w_dependencies w).

Definition add_warning (msg : pystr) (w : world) : world :=
  World (w_files w) (w_dirs w) (w_warned w) (w_warnings w ++ [msg]) (w_body w)
        (w_spawned w) (w_temps w) (w_reported w) (w_dependencies w).

Definition add_body (parts : list pystr) (w : world) : world :=
  World (w_files w) (w_dirs w) (w_warned w) (w_warnings w) (w_body w ++ parts)
        (w_spawned w) (w_temps w) (w_reported w) (w_dependencies w).

Definition add_spawned (argv : list pystr) (w : world) : world :=
  World (w_files w) (w_dirs w) (w_warned w) (w_warnings w) (w_body w)
        (w_spawned w ++ [argv]) (w_temps w) (w_reported w) (w_dependencies w).

Definition add_temp (name : pystr) (w : world) : world :=
  World (w_files w) (w_dirs w) (w_warned w) (w_warnings w) (w_body w)
        (w_spawned w) (w_temps w ++ [name]) (w_reported w) (w_dependencies w).

Definition add_reported (msg : pystr) (line : Z) (w : world) : world :=
  World (w_files w) (w_dirs w) (w_warned w) (w_warnings w) (w_body w)
        (w_spawned w) (w_temps w) (w_reported w ++ [(msg, line)]) (w_dependencies w).

Definition add_dependency (f : pystr) (w : world) : world :=
  World (w_files w) (w_dirs w) (w_warned w) (w_warnings w) (w_body w)
        (w_spawned w) (w_temps w) (w_reported w) (w_dependencies w ++ [f]).

(** ** The library calls of the module, as actions *)

(** [os.path.isfile(path)] *)
Definition isfile (path : pystr) : M bool :=
  gets (fun w => bool_decide (is_Some (w_files w !! path))).

(** [ensuredir(path)] *)
Definition ensuredir (path : pystr) : M unit := modify (add_dir path).

(** [os.unlink(path)] *)
Definition unlink (path : pystr) : M unit := modify (set_files (delete path)).

(** [f.write(data); f.close()] on the file called [path] *)
Definition write_file (path : pystr) (data : bytes) : M unit :=
  modify (set_files (insert path data)).

(** [self.builder.warn(msg)] *)
Definition builder_warn (msg : pystr) : M unit := modify (add_warning msg).

(** [self.body.append(part)] *)
Definition body_append (part : pystr) : M unit := modify (add_body [part]).

(** [p.wait()], also the end of a completed [communicate]: the process is
    over and what it wrote is on disk. *)
Definition wait (p : process) : M unit :=
  modify (set_files (fun fs => proc_writes p ∪ fs)).

(** Unfolds the monad and the library actions down to functions on the
    world. *)
Ltac unfold_actions :=
  unfold isfile, ensuredir, unlink, write_file, builder_warn, body_append,
    wait in *;
  unfold mbind, M_bind, mret, M_ret, bind, ret, raise, gets, modify,
    try_except, try_finally in *;
  cbn beta iota zeta in *.

Section Procedures.
Context `{host : Host} `{os : OS}.

(** [tempfile.NamedTemporaryFile(suffix='.ditaa', delete=False)]: the
    file exists, empty, from here on; the result is its [name]. *)
Definition named_temporary_file : M pystr :=
  fun w =>
    let name := os_tempname w in
    (Ret name, add_temp name (set_files (insert name []) w)).

(** [Popen(argv, stdout=PIPE, stdin=PIPE, stderr=PIPE)] *)
Definition popen (argv : list pystr) : M process :=
  fun w =>
    match os_popen w argv with
    | LaunchFailed e => (Raise e, add_spawned argv w)
    | Launched p => (Ret p, add_spawned argv w)
    end.

(** [p.communicate(input)] *)
Definition communicate (p : process) (input : bytes) : M (bytes * bytes) :=
  match proc_communicate p input with
  | Ret out => wait p;; ret out
  | Raise e => raise e
  end.

(** [str(l)] for a list of strings *)
Definition str_list (l : list pystr) : pystr :=
  lit "[" ++ join (lit ", ") (map repr_str l) ++ lit "]".

(** *** [render_ditaa] *)

(** Lines 98-100: the four encoded operands, added left to right. *)
Definition hashkey (self : builder) (code : pystr) (options : list pystr)
  : option bytes :=
  bytes_add
    (bytes_add
       (bytes_add (encode_utf8 code) (encode_utf8 (str_list options)))
       (encode_utf8 (config_ditaa self)))
    (encode_utf8 (str_list (config_ditaa_args self))).

(** Line 101: ['%s-%s.png' % (prefix, sha(hashkey).hexdigest())]. *)
Definition outfname_of (prefix : pystr) (key : bytes) : pystr :=
  prefix ++ lit "-" ++ sha_hexdigest key ++ lit ".png".

Definition outfname (self : builder) (code : pystr) (options : list pystr)
    (prefix : pystr) : option pystr :=
  outfname_of prefix <$> hashkey self code options.

(** Line 102. *)
Definition outrelfn_of (self : builder) (fname : pystr) : pystr :=
  path_join (imgpath self) fname.

(** Line 103: [os.path.join(outdir, '_images', outfname)], three
    components joined from the left. *)
Definition outfullfn_of (self : builder) (fname : pystr) : pystr :=
  path_join (path_join (outdir self) (lit "_images")) fname.

(** Line 118-122: the argument vector. *)
Definition ditaa_cmd_of (self : builder) (options : list pystr)
    (tmp outfullfn : pystr) : list pystr :=
  [config_ditaa self] ++ config_ditaa_args self ++ options ++ [tmp] ++ [outfullfn].

(** Lines 133-135. *)
Definition cannot_run_message (ditaa_cmd : list pystr) : pystr :=
  lit "ditaa command " ++ repr_str (join (lit " ") ditaa_cmd)
  ++ lit " cannot be run: check the " ++ DQUOTE ++ lit "ditaa" ++ DQUOTE
  ++ lit " and " ++ DQUOTE ++ lit "ditaa_args" ++ DQUOTE ++ lit " settings".

(** Lines 161-163, once both streams are decoded. *)
Definition exit_message (err out : pystr) : pystr :=
  lit "ditaa exited with error:" ++ NL ++ lit "[stderr]" ++ NL ++ err ++ NL
  ++ lit "[stdout]" ++ NL ++ out.

(** Lines 128-137.  [inl p] is the launched process, with which the
    block goes on at line 139; [inr r] is the handler's [return r]. *)
Definition launch_step (ditaa_cmd : list pystr)
  : M (process + (option pystr * option pystr)) :=
  try_except (p ← popen ditaa_cmd; mret (inl p))
    (fun exc =>
       match exc with
       | EnvironmentExc err =>
           if inst_OSError err then
             Some (if negb (errno err =? ENOENT) then raise exc
                   else
                     builder_warn (cannot_run_message ditaa_cmd);;
                     modify set_warned;;
                     mret (inr (None, None)))
           else None
       | _ => None
       end).

(** Lines 139-151.  The value is [Some (stdout, stderr)] when
    [communicate] returned, and [None] when a handler set [wentWrong]
    (the two names are not bound yet in that case). *)
Definition communicate_step (p : process) (code : bytes)
  : M (option (bytes * bytes)) :=
  try_except (out ← communicate p code; mret (Some out))
    (fun exc =>
       match exc with
       | EnvironmentExc err =>
           if inst_OSError err then
             Some (if negb (errno err =? EPIPE) then raise exc else mret None)
           else if inst_IOError err then
             Some (if negb (errno err =? EINVAL) then raise exc else mret None)
           else None
       | _ => None
       end).

(** Lines 153-157. *)
Definition drain_step (p : process) (comm : option (bytes * bytes))
  : M (bytes * bytes) :=
  match comm with
  | Some out => mret out
  | None =>
      let out := (proc_stdout_read p, proc_stderr_read p) in
      wait p;; mret out
  end.

(** Lines 159-163.  The left operand of the format tuple, [stderr], is
    decoded first. *)
Definition exit_check (p : process) (out : bytes * bytes) : M unit :=
  let '(stdout, stderr) := out in
  if negb (proc_returncode p =? 0) then
    modify set_warned;;
    match sys_decode stderr with
    | None => raise UnicodeDecodeError
    | Some err =>
        match sys_decode stdout with
        | None => raise UnicodeDecodeError
        | Some outtext => raise (DitaaError (exit_message err outtext))
        end
    end
  else mret tt.

(** Lines 127-165: the guarded part.  [Some r] is an early [return r]
    from inside the [try], [None] the normal end of the block. *)
Definition guarded_run (ditaa_cmd : list pystr) (code : bytes) (tmp : pystr)
  : M (option (option pystr * option pystr)) :=
  try_finally
    (l ← launch_step ditaa_cmd;
     match l with
     | inr early => mret (Some early)
     | inl p =>
         comm ← communicate_step p code;
         out ← drain_step p comm;
         exit_check p out;;
         mret None
     end)
    (unlink tmp).

Definition render_ditaa (self : builder) (code : pystr) (options : list pystr)
    (prefix : pystr) : M (option pystr * option pystr) :=
  match outfname self code options prefix with
  | None => raise UnicodeEncodeError
  | Some fname =>
      let outrelfn := outrelfn_of self fname in
      let outfullfn := outfullfn_of self fname in
      cached ← isfile outfullfn;
      if cached : bool then mret (Some outrelfn, Some outfullfn)
      else
        warned ← gets w_warned;
        if warned : bool then mret (None, None)
        else
          ensuredir (path_dirname outfullfn);;
          (* lines 114-115: code is a str, so it is encoded *)
          match encode_utf8 code with
          | None => raise UnicodeEncodeError
          | Some code_bytes =>
              tmp ← named_temporary_file;
              let ditaa_cmd := ditaa_cmd_of self options tmp outfullfn in
              write_file tmp code_bytes;;
              early ← guarded_run ditaa_cmd code_bytes tmp;
              match early with
              | Some r => mret r
              | None => mret (Some outrelfn, Some outfullfn)
              end
          end
  end.

(** *** The state at line 127 *)

(** A call that finds neither a cached image nor the failure flag
    reaches the [try] block after [ensuredir], [NamedTemporaryFile] and
    the write of the encoded text.  These two functions name the
    temporary file of that call and the state in which [Popen] runs;
    the properties of the later lines are stated with them. *)
Definition temp_of (self : builder) (fname : pystr) (w : world) : pystr :=
  os_tempname (add_dir (path_dirname (outfullfn_of self fname)) w).

Definition prepared (self : builder) (fname : pystr) (code_bytes : bytes)
    (w : world) : world :=
  let w1 := add_dir (path_dirname (outfullfn_of self fname)) w in
  let tmp := os_tempname w1 in
  set_files (insert tmp code_bytes) (add_temp tmp (set_files (insert tmp []) w1)).

(** A launch failure that line 131 lets through to the warning: an
    [OSError] whose [errno] is [ENOENT]. *)
Definition tool_not_found (exc : py_exc) : bool :=
  match exc with
  | EnvironmentExc err => inst_OSError err && (errno err =? ENOENT)
  | _ => false
  end.

(** *** The node and its visitors *)

(** A [ditaa] element.  ['ids'] and ['classes'] are the attributes every
    docutils element has; the others are the keys [Ditaa.run] stores, the
    optional ones absent when [None]. *)
Record ditaa := DitaaNode {
  node_ids : list pystr;
  node_classes : list pystr;
  node_code : pystr;
  node_options : list pystr;
  node_alt : option pystr;
  node_caption : option pystr;
  node_inline : option bool
}.

(** Lines 174-180 and 207-213: the handler of [DitaaError], where
    [info = str(exc)] is the error's message. *)
Definition on_ditaa_error {A} (node : ditaa) (exc : py_exc) : option (M A) :=
  match exc with
  | DitaaError info =>
      Some (modify (add_body (system_message_markup info (node_code node)));;
            builder_warn info;;
            raise SkipNode)
  | _ => None
  end.

(** Lines 193-194. *)
Definition img_tag (fname : pystr) : pystr :=
  lit "<img src=" ++ DQUOTE ++ fname ++ DQUOTE ++ lit "/>" ++ NL.

(** Line 196. *)
Definition end_tag (wrapper : pystr) : pystr :=
  lit "</" ++ wrapper ++ lit ">" ++ NL.

(** Lines 182-186. *)
Definition wrapper_of (node : ditaa) : pystr :=
  if default false (node_inline node) then lit "span" else lit "p".

(** Lines 182-197, after [render_ditaa] has returned [(fname, outfn)]. *)
Definition embed_html (node : ditaa) (code : pystr)
    (r : option pystr * option pystr) : M unit :=
  let '(fname, outfn) := r in
  let wrapper := wrapper_of node in
  body_append (starttag (node_ids node) (node_classes node) wrapper (lit "ditaa"));;
  match fname with
  | None => body_append (html_encode code)
  | Some f => body_append (img_tag f)
  end;;
  body_append (end_tag wrapper);;
  raise SkipNode.

Definition render_ditaa_html (self : builder) (node : ditaa) (code : pystr)
    (options : list pystr) (prefix : pystr) (imgcls alt : option pystr)
  : M unit :=
  r ← try_except (render_ditaa self code options prefix) (on_ditaa_error node);
  embed_html node code r.

Definition html_visit_ditaa (self : builder) (node : ditaa) : M unit :=
  render_ditaa_html self node (node_code node) (node_options node)
    (lit "ditaa") None None.

Definition render_ditaa_latex (self : builder) (node : ditaa) (code : pystr)
    (options : list pystr) (prefix : pystr) : M unit :=
  r ← try_except (render_ditaa self code options prefix) (on_ditaa_error node);
  let '(fname, outfn) := r in
  match fname with
  | Some _ =>
      (* '%s' % outfn prints None as the text None *)
      body_append (lit "\par\includegraphics{" ++ default (lit "None") outfn
                   ++ lit "}\par")
  | None => mret tt
  end;;
  raise SkipNode.

Definition latex_visit_ditaa (self : builder) (node : ditaa) : M unit :=
  render_ditaa_latex self node (node_code node) (node_options node) (lit "ditaa").

(** *** The directive *)

(** [self.options], restricted by [option_spec] to three keys: the text
    of [alt] and [caption] when given, and whether [inline] is given. *)
Record directive_options := DirectiveOptions {
  opt_alt : option pystr;
  opt_inline : bool;
  opt_caption : option pystr
}.

Record directive := Directive {
  arguments : list pystr;
  content : list pystr;
  options : directive_options;
  lineno : Z
}.

(** What [run] returns: a list of nodes, each a system message made by
    the reporter or a [ditaa] element. *)
Inductive doc_node :=
  | SystemMessage (msg : pystr) (line : Z)
  | Diagram (n : ditaa).

(** [reporter.warning(msg, line=line)]: the warning is reported and the
    system message comes back. *)
Definition reporter_warning (msg : pystr) (line : Z) : M doc_node :=
  modify (add_reported msg line);; mret (SystemMessage msg line).

(** Lines 70-74: [None] is the [IOError] of a file that cannot be opened. *)
Definition read_utf8 (filename : pystr) : M (option pystr) :=
  fs ← gets w_files;
  match fs !! filename with
  | None => mret None
  | Some data =>
      match codec_utf8_decode data with
      | None => raise UnicodeDecodeError
      | Some text => mret (Some text)
      end
  end.

(** Lines 85-93. *)
Definition make_node (self : directive) (dotcode : pystr) : ditaa :=
  {| node_ids := []; node_classes := [];
     node_code := dotcode;
     node_options := [];
     node_alt := opt_alt (options self);
     node_caption := opt_caption (options self);
     node_inline := Some (opt_inline (options self)) |}.

(** [Ditaa.run]. *)
Definition run (self : directive) : M (list doc_node) :=
  match arguments self with
  | arg0 :: _ =>
      match content self with
      | _ :: _ =>
          sm ← reporter_warning
                 (lit "Ditaa directive cannot have both content and a filename argument")
                 (lineno self);
          mret [sm]
      | [] =>
          let '(rel_filename, filename) := relfn2path arg0 in
          modify (add_dependency rel_filename);;
          read ← read_utf8 filename;
          match read with
          | None =>
              sm ← reporter_warning
                     (lit "External Ditaa file " ++ repr_str filename
                      ++ lit " not found or reading it failed")
                     (lineno self);
              mret [sm]
          | Some dotcode => mret [Diagram (make_node self dotcode)]
          end
      end
  | [] =>
      let dotcode := join NL (content self) in
      if strip_is_empty dotcode then
        sm ← reporter_warning
               (lit "Ignoring " ++ DQUOTE ++ lit "ditaa" ++ DQUOTE
                ++ lit " directive without content.")
               (lineno self);
        mret [sm]
      else mret [Diagram (make_node self dotcode)]
  end.

(** *** Vocabulary for the properties of nodes *)

(** The node that differs from [n] in its ['alt'] attribute only. *)
Definition with_alt (alt : option pystr) (n : ditaa) : ditaa :=
  {| node_ids := node_ids n; node_classes := node_classes n;
     node_code := node_code n; node_options := node_options n;
     node_alt := alt; node_caption := node_caption n;
     node_inline := node_inline n |}.

Definition is_diagram (d : doc_node) : bool :=
  match d with Diagram _ => true | SystemMessage _ _ => false end.

Definition count_diagrams (nodes : list doc_node) : nat :=
  length (filter is_diagram nodes).

Definition count_warnings (nodes : list doc_node) : nat :=
  length (filter (fun d => negb (is_diagram d)) nodes).
End Procedures.

(** ** The UTF-8 reader of [codecs.open] *)

(** A continuation byte. *)
Definition is_cont (b : Z) : bool := (0x80 <=? b) && (b <=? 0xBF).

(** The second byte a three-byte lead admits: no overlong forms after
    [0xE0], no surrogates after [0xED]. *)
Definition second_of_three (b0 b1 : Z) : bool :=
  if b0 =? 0xE0 then (0xA0 <=? b1) && (b1 <=? 0xBF)
  else if b0 =? 0xED then (0x80 <=? b1) && (b1 <=? 0x9F)
  else is_cont b1.

(** The second byte a four-byte lead admits: no overlong forms after
    [0xF0], nothing above U+10FFFF after [0xF4]. *)
Definition second_of_four (b0 b1 : Z) : bool :=
  if b0 =? 0xF0 then (0x90 <=? b1) && (b1 <=? 0xBF)
  else if b0 =? 0xF4 then (0x80 <=? b1) && (b1 <=? 0x8F)
  else is_cont b1.

(** [codecs.open(f, 'r', 'utf-8').read()] on a file holding [data], with
    the default strict error handling.  An invalid byte is
    [UnicodeDecodeError] ([None]).  The stream reader does not decode in
    final mode: a sequence that is cut off by the end of the file stays in
    its buffer and is dropped without an error. *)
Fixpoint utf8_read (data : bytes) : option pystr :=
  match data with
  | [] => Some []
  | b0 :: rest =>
      if (0 <=? b0) && (b0 <? 0x80) then cons b0 <$> utf8_read rest
      else if (0xC2 <=? b0) && (b0 <=? 0xDF) then
        match rest with
        | [] => Some []
        | b1 :: rest1 =>
            if is_cont b1
            then cons ((b0 - 0xC0) * 64 + (b1 - 0x80)) <$> utf8_read rest1
            else None
        end
      else if (0xE0 <=? b0) && (b0 <=? 0xEF) then
        match rest with
        | [] => Some []
        | b1 :: rest1 =>
            if second_of_three b0 b1 then
              match rest1 with
              | [] => Some []
              | b2 :: rest2 =>
                  if is_cont b2
                  then cons ((b0 - 0xE0) * 4096 + (b1 - 0x80) * 64 + (b2 - 0x80))
                         <$> utf8_read rest2
                  else None
              end
            else None
        end
      else if (0xF0 <=? b0) && (b0 <=? 0xF4) then
        match rest with
        | [] => Some []
        | b1 :: rest1 =>
            if second_of_four b0 b1 then
              match rest1 with
              | [] => Some []
              | b2 :: rest2 =>
                  if is_cont b2 then
                    match rest2 with
                    | [] => Some []
                    | b3 :: rest3 =>
                        if is_cont b3
                        then cons ((b0 - 0xF0) * 262144 + (b1 - 0x80) * 4096
                                   + (b2 - 0x80) * 64 + (b3 - 0x80))
                               <$> utf8_read rest3
                        else None
                    end
                  else None
              end
            else None
        end
      else None
  end.

(** ** A concrete runtime *)

(** A small runtime and operating system on which the procedures can be
    evaluated.  The digest is a one-byte checksum in two hexadecimal digits
    (a stand-in for sha1).  Paths are those of [posixpath].  [repr] is
    Python's on ASCII text; other characters are kept as they are, which is
    what Python does with the printable ones.  The host's text encoding is
    ASCII, as in the C locale.  Files are read by [utf8_read].  [starttag]
    and [encode] follow docutils for nodes whose ids and classes need no
    escaping. *)
Module Demo.

Definition hex_digit (n : Z) : Z :=
  if n <? 10 then 48 + n else 87 + n.

Definition checksum (data : bytes) : pystr :=
  let s := (foldr Z.add 0 data) mod 256 in
  [hex_digit (s / 16); hex_digit (s mod 16)].

Definition posix_join (a b : pystr) : pystr :=
  match b with
  | 47 :: _ => b
  | _ =>
      match last a with
      | None | Some 47 => a ++ b
      | Some _ => a ++ [47] ++ b
      end
  end.

(** [p[:p.rfind('/') + 1]]: the path up to and with its last slash. *)
Fixpoint upto_last_slash (path : pystr) : pystr :=
  match path with
  | [] => []
  | c :: rest =>
      if bool_decide (47 ∈ rest) then c :: upto_last_slash rest
      else if c =? 47 then [47] else []
  end.

Fixpoint drop_slashes (s : pystr) : pystr :=
  match s with
  | [] => []
  | c :: rest => if c =? 47 then drop_slashes rest else s
  end.

(** [posixpath.dirname]: the head, without its trailing slashes unless it
    is made of slashes only. *)
Definition posix_dirname (path : pystr) : pystr :=
  let head := upto_last_slash path in
  if forallb (fun c => c =? 47) head then head
  else reverse (drop_slashes (reverse head)).

Definition ascii_decode (data : bytes) : option pystr :=
  if forallb (fun b => (0 <=? b) && (b <? 128)) data then Some data else None.

(** One character inside [repr], for the chosen quote. *)
Definition repr_char (quote c : Z) : pystr :=
  if (c =? quote) || (c =? 92) then [92; c]
  else if c =? 9 then lit "\t"
  else if c =? 10 then lit "\n"
  else if c =? 13 then lit "\r"
  else if (c <? 32) || (c =? 127) then
    lit "\x" ++ [hex_digit (c / 16); hex_digit (c mod 16)]
  else [c].

(** [repr(s)]: single quotes, unless the text has a single quote and no
    double quote. *)
Definition py_repr (s : pystr) : pystr :=
  let quote :=
    if bool_decide (39 ∈ s) && negb (bool_decide (34 ∈ s)) then 34 else 39 in
  [quote] ++ concat (map (repr_char quote) s) ++ [quote].

(** The characters docutils' [encode] replaces. *)
Definition escape_char (c : Z) : pystr :=
  if c =? 38 then lit "&amp;"
  else if c =? 60 then lit "&lt;"
  else if c =? 62 then lit "&gt;"
  else if c =? 34 then lit "&quot;"
  else if c =? 64 then lit "&#64;"
  else [c].

(** docutils' [starttag] for a call with [CLASS] only: the attributes are
    sorted by name, the first id goes into the tag, the others into empty
    spans after it. *)
Definition simple_starttag (ids classes : list pystr) (tag cls : pystr) : pystr :=
  let id_att :=
    match ids with
    | [] => []
    | i :: _ => lit " id=" ++ DQUOTE ++ i ++ DQUOTE
    end in
  let more_ids :=
    concat (map (fun i => lit "<span id=" ++ DQUOTE ++ i ++ DQUOTE
                          ++ lit "></span>") (tail ids)) in
  lit "<" ++ tag ++ lit " class=" ++ DQUOTE
  ++ join (lit " ") (classes ++ [cls]) ++ DQUOTE ++ id_att ++ lit ">" ++ NL
  ++ more_ids.

#[export] Instance host : Host := {|
  sha_hexdigest := checksum;
  repr_str := py_repr;
  path_join := posix_join;
  path_dirname := posix_dirname;
  sys_decode := ascii_decode;
  codec_utf8_decode := utf8_read;
  starttag := simple_starttag;
  html_encode := fun s => concat (map escape_char s);
  system_message_markup := fun info source => [info];
  relfn2path := fun f => (f, lit "/doc/" ++ f)
|}.

(** The error a Python 3 runtime raises for [errno] [n]: an instance of
    [OSError], of which [IOError] is another name. *)
Definition os_error (n : Z) : py_exc := EnvironmentExc (EnvError true true n).

(** A tool that writes the image named by its last argument and exits
    with 0. *)
Definition good_tool (argv : list pystr) : process :=
  {| proc_communicate := fun _ => Ret ([], []);
     proc_stdout_read := []; proc_stderr_read := [];
     proc_returncode := 0;
     proc_writes := {[ default [] (last argv) := lit "PNG" ]} |}.

(** A stub that writes a message to its error stream and exits with 1. *)
Definition failing_tool : process :=
  {| proc_communicate := fun _ => Ret (lit "rendering", lit "syntax error");
     proc_stdout_read := []; proc_stderr_read := [];
     proc_returncode := 1;
     proc_writes := ∅ |}.

(** A tool that closes its input early: [communicate] fails with [n], the
    message is still in the pipe. *)
Definition closing_tool (n : Z) : process :=
  {| proc_communicate := fun _ => Raise (os_error n);
     proc_stdout_read := []; proc_stderr_read := lit "bad diagram";
     proc_returncode := 1;
     proc_writes := ∅ |}.

(** The answer to [Popen] depends on the name of the tool. *)
Definition demo_popen (argv : list pystr) : launch :=
  match argv with
  | [] => LaunchFailed (OtherExc (lit "IndexError"))
  | tool :: _ =>
      if bool_decide (tool = lit "ditaa") then Launched (good_tool argv)
      else if bool_decide (tool = lit "failing") then Launched failing_tool
      else if bool_decide (tool = lit "epipe") then Launched (closing_tool EPIPE)
      else if bool_decide (tool = lit "einval") then Launched (closing_tool EINVAL)
      else if bool_decide (tool = lit "denied") then LaunchFailed (os_error 13)
      else LaunchFailed (os_error ENOENT)
  end.

#[export] Instance os : OS := {|
  os_tempname := fun _ => lit "/tmp/tmp0.ditaa";
  os_popen := fun _ argv => demo_popen argv
|}.

Definition builder_with (tool : pystr) : builder :=
  {| imgpath := lit "_images"; outdir := lit "out";
     config_ditaa := tool; config_ditaa_args := [lit "-E"] |}.

Definition empty_world : world :=
  {| w_files := ∅; w_dirs := ∅; w_warned := false; w_warnings := [];
     w_body := []; w_spawned := []; w_temps := [];
     w_reported := []; w_dependencies := [] |}.

Definition diagram : pystr := lit "+--+".

(** The image of [diagram] for the tool [ditaa] is on disk. *)
Definition cached_world : world :=
  set_files (insert (lit "out/_images/ditaa-e3.png") (lit "PNG")) empty_world.

(** A directive with both a filename and content. *)
Definition both_given : directive :=
  {| arguments := [lit "box.ditaa"]; content := [diagram];
     options := DirectiveOptions None false None; lineno := 7 |}.

(** A directive with content and every option. *)
Definition inline_diagram : directive :=
  {| arguments := []; content := [diagram; diagram];
     options := DirectiveOptions (Some (lit "a box")) true (Some (lit "Box"));
     lineno := 12 |}.

End Demo.

(** ** [str.strip()] written out *)

(** [s.lstrip()]: leading white space removed. *)
Fixpoint lstrip (s : pystr) : pystr :=
  match s with
  | [] => []
  | c :: rest => if isspace c then lstrip rest else s
  end.

(** [s.strip()]: white space removed from both ends. *)
Definition strip (s : pystr) : pystr :=
  reverse (lstrip (reverse (lstrip s))).

(** ** Further concrete cases *)

(** More inputs for the concrete runtime: a tool that exits with 0 and writes
    nothing, external files for the directive, and a text that has no UTF-8
    encoding. *)
Module Cases.

Definition silent_tool : process :=
  {| proc_communicate := fun _ => Ret ([], []);
     proc_stdout_read := []; proc_stderr_read := [];
     proc_returncode := 0;
     proc_writes := ∅ |}.

Definition silent_os : OS := {|
  os_tempname := fun _ => lit "/tmp/tmp0.ditaa";
  os_popen := fun _ _ => Launched silent_tool
|}.

(** Every launched tool fails in [communicate] with [EIO]. *)
Definition eio_os : OS := {|
  os_tempname := fun _ => lit "/tmp/tmp0.ditaa";
  os_popen := fun _ _ => Launched (Demo.closing_tool 5)
|}.

(** A tool that exits with 1 after writing a byte that is text in neither
    ASCII nor UTF-8 to its error stream. *)
Definition garbling_tool : process :=
  {| proc_communicate := fun _ => Ret (lit "rendering", [0xFF]);
     proc_stdout_read := []; proc_stderr_read := [];
     proc_returncode := 1;
     proc_writes := ∅ |}.

Definition garbling_os : OS := {|
  os_tempname := fun _ => lit "/tmp/tmp0.ditaa";
  os_popen := fun _ _ => Launched garbling_tool
|}.

(** A lone surrogate. *)
Definition unencodable : pystr := [0xD800].

Definition from_file : directive :=
  {| arguments := [lit "box.ditaa"]; content := [];
     options := DirectiveOptions (Some (lit "a box")) false None; lineno := 3 |}.

Definition blank_lines : directive :=
  {| arguments := []; content := [lit "  "; []; [9]];
     options := DirectiveOptions None true None; lineno := 5 |}.

Definition world_with_file (data : bytes) : world :=
  set_files (insert (lit "/doc/box.ditaa") data) Demo.empty_world.

End Cases.

(** * Properties *)

(** ** UTF-8 encoding *)

Lemma bytes_add_assoc (a b c : option bytes) :
  bytes_add (bytes_add a b) c = bytes_add a (bytes_add b c).
Proof.
  destruct a as [x|], b as [y|], c as [z|]; simpl; try reflexivity.
  by rewrite <- app_assoc.
Qed.

(** Encoding distributes over concatenation: the encoding of [a + b] is the
    sum of the encodings, and fails when either operand's does. *)
Lemma encode_utf8_app (a b : pystr) :
  encode_utf8 (a ++ b) = bytes_add (encode_utf8 a) (encode_utf8 b).
Proof.
  induction a as [|c a IH]; simpl.
  - by destruct (encode_utf8 b).
  - rewrite IH.
    destruct (encode_cp c) as [x|]; [|reflexivity].
    destruct (encode_utf8 a) as [xs|], (encode_utf8 b) as [ys|]; simpl;
      try reflexivity.
    by rewrite <- app_assoc.
Qed.

Lemma lor_below (n a b : Z) :
  0 <= n → 0 <= a < 2 ^ n → 0 <= b < 2 ^ n → 0 <= Z.lor a b < 2 ^ n.
Proof.
  intros Hn [Ha0 Ha] [Hb0 Hb].
  destruct (Z.eq_dec n 0) as [->|Hn0].
  { rewrite Z.pow_0_r in *.
    assert (a = 0) as -> by lia. assert (b = 0) as -> by lia.
    rewrite Z.lor_0_l. lia. }
  split; [apply Z.lor_nonneg; lia|].
  destruct (Z.eq_dec (Z.lor a b) 0) as [->|Hz]; [apply Z.pow_pos_nonneg; lia|].
  apply Z.log2_lt_pow2.
  - pose proof (proj2 (Z.lor_nonneg a b) (conj Ha0 Hb0)). lia.
  - rewrite Z.log2_lor by lia.
    apply Z.max_lub_lt.
    + destruct (Z.eq_dec a 0) as [->|]; [simpl; lia|].
      apply Z.log2_lt_pow2; lia.
    + destruct (Z.eq_dec b 0) as [->|]; [simpl; lia|].
      apply Z.log2_lt_pow2; lia.
Qed.

Lemma land_63_below (x : Z) : 0 <= Z.lor 0x80 (Z.land x 0x3F) < 256.
Proof.
  assert (0 <= Z.land x 0x3F < 64).
  { change 0x3F with (Z.ones 6). rewrite Z.land_ones by lia.
    apply Z.mod_pos_bound. lia. }
  apply (lor_below 8); lia.
Qed.

Lemma shiftr_below (c k bound : Z) :
  0 <= k → 0 <= c < bound * 2 ^ k → 0 <= Z.shiftr c k < bound.
Proof.
  intros Hk [Hc0 Hc]. rewrite Z.shiftr_div_pow2 by lia.
  assert (0 < 2 ^ k) by (apply Z.pow_pos_nonneg; lia).
  split.
  - apply Z.div_pos; lia.
  - apply Z.div_lt_upper_bound; lia.
Qed.

(** What [encode_cp] produces are bytes. *)
Lemma encode_cp_bytes (c : Z) (bs : bytes) :
  encode_cp c = Some bs → Forall (fun b => 0 <= b < 256) bs.
Proof.
  unfold encode_cp.
  repeat (case_match; try discriminate); intros [= <-];
    repeat match goal with
           | H : (_ <? _) = _ |- _ => apply Z.ltb_ge in H || apply Z.ltb_lt in H
           end;
    repeat first [apply List.Forall_cons | apply List.Forall_nil];
    try lia; try apply land_63_below.
  - apply (lor_below 8); [lia|lia|].
    pose proof (shiftr_below c 6 32). lia.
  - apply (lor_below 8); [lia|lia|].
    pose proof (shiftr_below c 12 16). lia.
  - apply (lor_below 8); [lia|lia|].
    pose proof (shiftr_below c 18 8). lia.
Qed.

Lemma encode_utf8_bytes (s : pystr) (bs : bytes) :
  encode_utf8 s = Some bs → Forall (fun b => 0 <= b < 256) bs.
Proof.
  revert bs. induction s as [|c s IH]; simpl; intros bs.
  - intros [= <-]. constructor.
  - destruct (encode_cp c) as [x|] eqn:Hc; [|discriminate].
    destruct (encode_utf8 s) as [xs|]; [|discriminate].
    intros [= <-]. apply Forall_app. split; [by eapply encode_cp_bytes | by apply IH].
Qed.

(** ASCII text is encoded as itself. *)
Lemma encode_utf8_ascii (s : pystr) :
  Forall (fun c => 0 <= c < 128) s → encode_utf8 s = Some s.
Proof.
  induction 1 as [|c s Hc _ IH]; simpl; [reflexivity|].
  rewrite IH. unfold encode_cp.
  destruct (Z.ltb_spec c 0); [lia|].
  destruct (Z.ltb_spec c 0x80); [reflexivity|lia].
Qed.

(** ** The cache key *)

Section CacheKey.
Context `{host : Host}.

(** The key that is hashed is the encoding of one concatenated text. *)
Lemma hashkey_concat (self : builder) (code : pystr) (options : list pystr) :
  hashkey self code options =
  encode_utf8 (code ++ str_list options ++ config_ditaa self
               ++ str_list (config_ditaa_args self)).
Proof.
  unfold hashkey. rewrite !encode_utf8_app, !bytes_add_assoc. reflexivity.
Qed.

(** When the key exists, the diagram text alone can be encoded. *)
Lemma hashkey_code (self : builder) (code : pystr) (options : list pystr) key :
  hashkey self code options = Some key → is_Some (encode_utf8 code).
Proof.
  unfold hashkey. destruct (encode_utf8 code); [eauto|discriminate].
Qed.

Lemma outfname_code (self : builder) (code : pystr) (options : list pystr)
    prefix fname :
  outfname self code options prefix = Some fname → is_Some (encode_utf8 code).
Proof.
  unfold outfname. destruct (hashkey self code options) eqn:Hk; [|discriminate].
  intros _. by eapply hashkey_code.
Qed.

(** C1.  The output file name is a function of the prefix, the diagram
    text, the options, the tool path and the tool arguments only: it is
    [prefix], a dash, the hexadecimal digest of the UTF-8 encoding of the
    concatenation of the text, [str(options)], the tool path and
    [str(tool args)], and [.png] (there is no name when that text cannot
    be encoded); the builder's other attributes do not enter it. *)
Theorem cache_key_deterministic :
  (∀ (self : builder) (code : pystr) (options : list pystr) (prefix : pystr),
      outfname self code options prefix =
      (fun key => prefix ++ lit "-" ++ sha_hexdigest key ++ lit ".png")
        <$> encode_utf8 (code ++ str_list options ++ config_ditaa self
                         ++ str_list (config_ditaa_args self)))
  ∧ (∀ (img1 out1 img2 out2 tool : pystr) (args : list pystr)
       (code : pystr) (options : list pystr) (prefix : pystr),
      outfname (Builder img1 out1 tool args) code options prefix =
      outfname (Builder img2 out2 tool args) code options prefix).
Proof.
  split.
  - intros. unfold outfname. rewrite hashkey_concat. reflexivity.
  - intros. reflexivity.
Qed.
End CacheKey.

(** ** Rendering *)

Section Rendering.
Context `{host : Host} `{os : OS}.

(** The three ways through lines 96-125. *)
Lemma render_ditaa_cached self code options prefix w fname :
  outfname self code options prefix = Some fname →
  is_Some (w_files w !! outfullfn_of self fname) →
  render_ditaa self code options prefix w =
  (Ret (Some (outrelfn_of self fname), Some (outfullfn_of self fname)), w).
Proof.
  intros Hname Hfile. unfold render_ditaa. rewrite Hname.
  unfold_actions. by rewrite bool_decide_eq_true_2.
Qed.

Lemma render_ditaa_skipped self code options prefix w fname :
  outfname self code options prefix = Some fname →
  w_files w !! outfullfn_of self fname = None →
  w_warned w = true →
  render_ditaa self code options prefix w = (Ret (None, None), w).
Proof.
  intros Hname Hfile Hwarned. unfold render_ditaa. rewrite Hname.
  unfold_actions. rewrite bool_decide_eq_false_2.
  - by rewrite Hwarned.
  - rewrite Hfile. by intros [? ?].
Qed.

Lemma render_ditaa_runs self code options prefix w fname code_bytes :
  outfname self code options prefix = Some fname →
  w_files w !! outfullfn_of self fname = None →
  w_warned w = false →
  encode_utf8 code = Some code_bytes →
  render_ditaa self code options prefix w =
  match guarded_run
          (ditaa_cmd_of self options (temp_of self fname w) (outfullfn_of self fname))
          code_bytes (temp_of self fname w)
          (prepared self fname code_bytes w) with
  | (Ret (Some r), w') => (Ret r, w')
  | (Ret None, w') =>
      (Ret (Some (outrelfn_of self fname), Some (outfullfn_of self fname)), w')
  | (Raise e, w') => (Raise e, w')
  end.
Proof.
  intros Hname Hfile Hwarned Hcode. unfold render_ditaa. rewrite Hname.
  unfold_actions. rewrite bool_decide_eq_false_2.
  2: { rewrite Hfile. by intros [? ?]. }
  simpl. rewrite Hwarned, Hcode. unfold named_temporary_file.
  fold (temp_of self fname w). unfold prepared. fold (temp_of self fname w).
  simpl.
  destruct (guarded_run _ _ _ _) as [[[r|]|e] w']; reflexivity.
Qed.

(** C2.  When a file exists at the computed output path, the call returns
    the pair of the public-relative and the absolute path of that file
    and leaves the whole state as it was: no [Popen] call is logged, the
    failure flag, the warnings and the files are unchanged. *)
Theorem cache_hit_returns_immediately
    (self : builder) (code : pystr) (options : list pystr) (prefix : pystr)
    (w : world) (fname : pystr) :
  outfname self code options prefix = Some fname →
  is_Some (w_files w !! outfullfn_of self fname) →
  ∃ w',
    render_ditaa self code options prefix w =
    (Ret (Some (path_join (imgpath self) fname),
          Some (path_join (path_join (outdir self) (lit "_images")) fname)), w')
    ∧ w' = w
    ∧ w_spawned w' = w_spawned w
    ∧ w_warned w' = w_warned w.
Proof.
  intros Hname Hfile. exists w.
  rewrite (render_ditaa_cached _ _ _ _ _ _ Hname Hfile). done.
Qed.

(** *** Lines 127-165 *)

Lemma launch_step_failed cmd w e :
  os_popen w cmd = LaunchFailed e →
  launch_step cmd w =
  if tool_not_found e
  then (Ret (inr (None, None)),
        set_warned (add_warning (cannot_run_message cmd) (add_spawned cmd w)))
  else (Raise e, add_spawned cmd w).
Proof.
  intros Hpopen. unfold launch_step, popen. unfold_actions. rewrite Hpopen.
  destruct e as [err| | | | |]; try reflexivity. simpl.
  destruct (inst_OSError err); [|reflexivity]. simpl.
  destruct (errno err =? ENOENT); reflexivity.
Qed.

Lemma launch_step_launched cmd w p :
  os_popen w cmd = Launched p →
  launch_step cmd w = (Ret (inl p), add_spawned cmd w).
Proof.
  intros Hpopen. unfold launch_step, popen. unfold_actions. by rewrite Hpopen.
Qed.

(** What the two handlers of lines 144-151 do with an error of
    [communicate]: the first clause whose class matches decides. *)
Lemma communicate_step_OSError p code w err :
  proc_communicate p code = Raise (EnvironmentExc err) →
  inst_OSError err = true →
  communicate_step p code w =
  if errno err =? EPIPE then (Ret None, w) else (Raise (EnvironmentExc err), w).
Proof.
  intros Hcomm Hcls. unfold communicate_step, communicate. rewrite Hcomm.
  unfold_actions. rewrite Hcls. by destruct (errno err =? EPIPE).
Qed.

Lemma communicate_step_IOError_only p code w err :
  proc_communicate p code = Raise (EnvironmentExc err) →
  inst_OSError err = false →
  inst_IOError err = true →
  communicate_step p code w =
  if errno err =? EINVAL then (Ret None, w) else (Raise (EnvironmentExc err), w).
Proof.
  intros Hcomm Hos Hio. unfold communicate_step, communicate. rewrite Hcomm.
  unfold_actions. rewrite Hos, Hio. by destruct (errno err =? EINVAL).
Qed.

Lemma communicate_step_returned p code w out :
  proc_communicate p code = Ret out →
  communicate_step p code w =
  (Ret (Some out), set_files (fun fs => proc_writes p ∪ fs) w).
Proof.
  intros Hcomm. unfold communicate_step, communicate. by rewrite Hcomm.
Qed.

(** No step inside the [try] block touches the list of temporary names,
    and the [finally] clause removes the file. *)
Lemma guarded_run_temp cmd code tmp w r w' :
  guarded_run cmd code tmp w = (r, w') →
  w_temps w' = w_temps w ∧ w_files w' !! tmp = None.
Proof.
  unfold guarded_run, launch_step, popen, communicate_step, communicate,
    drain_step, exit_check.
  unfold_actions. intros Hrun.
  repeat (case_match; simplify_eq/=); split;
    first [reflexivity | apply lookup_delete_eq].
Qed.

(** A call that gets past the cache and the flag does create a temporary
    file: the one [temp_of] names. *)
Lemma render_ditaa_creates_temp self code options prefix w fname code_bytes :
  outfname self code options prefix = Some fname →
  w_files w !! outfullfn_of self fname = None →
  w_warned w = false →
  encode_utf8 code = Some code_bytes →
  w_temps (render_ditaa self code options prefix w).2 =
  w_temps w ++ [temp_of self fname w].
Proof.
  intros Hname Hfile Hwarned Hcode.
  rewrite (render_ditaa_runs _ _ _ _ _ _ _ Hname Hfile Hwarned Hcode).
  destruct (guarded_run _ _ _ _) as [r w'] eqn:Hrun.
  apply guarded_run_temp in Hrun as [Htemps _].
  destruct r as [[r|]|e]; simpl; by rewrite Htemps.
Qed.

(** A broken pipe is recovered from: the streams are read from the pipes,
    the process is waited for, and the call goes on to the exit-code
    check. *)
Lemma communicate_EPIPE_recovered
    self code options prefix w fname code_bytes p err :
  outfname self code options prefix = Some fname →
  w_files w !! outfullfn_of self fname = None →
  w_warned w = false →
  encode_utf8 code = Some code_bytes →
  let tmp := temp_of self fname w in
  let cmd := ditaa_cmd_of self options tmp (outfullfn_of self fname) in
  os_popen (prepared self fname code_bytes w) cmd = Launched p →
  proc_communicate p code_bytes = Raise (EnvironmentExc err) →
  inst_OSError err = true →
  errno err = EPIPE →
  render_ditaa self code options prefix w =
  match exit_check p (proc_stdout_read p, proc_stderr_read p)
          (set_files (fun fs => proc_writes p ∪ fs)
             (add_spawned cmd (prepared self fname code_bytes w))) with
  | (Ret _, w') =>
      (Ret (Some (outrelfn_of self fname), Some (outfullfn_of self fname)),
       set_files (delete tmp) w')
  | (Raise e, w') => (Raise e, set_files (delete tmp) w')
  end.
Proof.
  intros Hname Hfile Hwarned Hcode tmp cmd Hpopen Hcomm Hcls Herrno.
  rewrite (render_ditaa_runs _ _ _ _ _ _ _ Hname Hfile Hwarned Hcode).
  fold tmp cmd. unfold guarded_run. unfold_actions.
  rewrite (launch_step_launched _ _ _ Hpopen).
  rewrite (communicate_step_OSError _ _ _ _ Hcomm Hcls), Herrno, Z.eqb_refl.
  unfold drain_step. unfold_actions.
  destruct (exit_check _ _ _) as [[[]|e] w']; reflexivity.
Qed.

(** An error of [communicate] with any other [errno] propagates, whichever
    of the two classes it belongs to. *)
Lemma communicate_other_errno_propagates p code w err :
  proc_communicate p code = Raise (EnvironmentExc err) →
  errno err ≠ EPIPE →
  errno err ≠ EINVAL →
  communicate_step p code w = (Raise (EnvironmentExc err), w).
Proof.
  intros Hcomm Hpipe Hinval. unfold communicate_step, communicate.
  rewrite Hcomm. unfold_actions.
  rewrite (proj2 (Z.eqb_neq _ _) Hpipe), (proj2 (Z.eqb_neq _ _) Hinval).
  by destruct (inst_OSError err), (inst_IOError err).
Qed.

(** *** Failures of the tool *)

(** C3.  (1) When [Popen] fails with an [OSError]
    whose [errno] is [ENOENT], the call records one warning, sets the
    failure flag and returns [(None, None)].  (2) Any other launch
    failure propagates, and neither warns nor sets the flag.  (3) Once
    the flag is set, a call changes nothing and calls [Popen] no more; it
    returns [(None, None)] unless the image is already cached, in which
    case it returns the cached paths: the cache is looked up before the
    flag. *)
Theorem tool_not_found_is_sticky :
  (∀ self code options prefix w fname code_bytes e,
      outfname self code options prefix = Some fname →
      w_files w !! outfullfn_of self fname = None →
      w_warned w = false →
      encode_utf8 code = Some code_bytes →
      os_popen (prepared self fname code_bytes w)
        (ditaa_cmd_of self options (temp_of self fname w) (outfullfn_of self fname))
      = LaunchFailed e →
      tool_not_found e = true →
      ∃ w',
        render_ditaa self code options prefix w = (Ret (None, None), w')
        ∧ w_warned w' = true
        ∧ w_warnings w' =
          w_warnings w ++
          [cannot_run_message
             (ditaa_cmd_of self options (temp_of self fname w) (outfullfn_of self fname))])
  ∧ (∀ self code options prefix w fname code_bytes e,
      outfname self code options prefix = Some fname →
      w_files w !! outfullfn_of self fname = None →
      w_warned w = false →
      encode_utf8 code = Some code_bytes →
      os_popen (prepared self fname code_bytes w)
        (ditaa_cmd_of self options (temp_of self fname w) (outfullfn_of self fname))
      = LaunchFailed e →
      tool_not_found e = false →
      ∃ w',
        render_ditaa self code options prefix w = (Raise e, w')
        ∧ w_warned w' = false
        ∧ w_warnings w' = w_warnings w)
  ∧ (∀ self code options prefix w fname,
      outfname self code options prefix = Some fname →
      w_warned w = true →
      render_ditaa self code options prefix w =
      (if bool_decide (is_Some (w_files w !! outfullfn_of self fname))
       then Ret (Some (outrelfn_of self fname), Some (outfullfn_of self fname))
       else Ret (None, None),
       w)).
Proof.
  split; [|split].
  - intros * Hname Hfile Hwarned Hcode Hpopen Hnf.
    rewrite (render_ditaa_runs _ _ _ _ _ _ _ Hname Hfile Hwarned Hcode).
    unfold guarded_run. unfold_actions.
    rewrite (launch_step_failed _ _ _ Hpopen), Hnf.
    eexists. split; [reflexivity|]. done.
  - intros * Hname Hfile Hwarned Hcode Hpopen Hnf.
    rewrite (render_ditaa_runs _ _ _ _ _ _ _ Hname Hfile Hwarned Hcode).
    unfold guarded_run. unfold_actions.
    rewrite (launch_step_failed _ _ _ Hpopen), Hnf.
    eexists. split; [reflexivity|]. done.
  - intros * Hname Hwarned. case_bool_decide as Hfile.
    + by apply render_ditaa_cached.
    + apply (render_ditaa_skipped _ _ _ _ _ fname); [done| |done].
      destruct (w_files w !! outfullfn_of self fname) eqn:E; [|done].
      exfalso. apply Hfile. eauto.
Qed.

(** C4.  A nonzero exit code does not always end in a [DitaaError].  When
    the tool has written output that the host's encoding cannot decode, the
    failure flag is set and then the decoding of [stderr] (or, after it, of
    [stdout]) for the error message raises [UnicodeDecodeError]: that is
    what the call raises, and the HTML visitor, which handles [DitaaError]
    only, lets it through. *)
Theorem nonzero_exit_undecodable_output
    self node code options prefix imgcls alt w fname code_bytes p stdout stderr :
  outfname self code options prefix = Some fname →
  w_files w !! outfullfn_of self fname = None →
  w_warned w = false →
  encode_utf8 code = Some code_bytes →
  let tmp := temp_of self fname w in
  let cmd := ditaa_cmd_of self options tmp (outfullfn_of self fname) in
  os_popen (prepared self fname code_bytes w) cmd = Launched p →
  proc_communicate p code_bytes = Ret (stdout, stderr) →
  proc_returncode p ≠ 0 →
  sys_decode stderr = None ∨ sys_decode stdout = None →
  let w' := set_files (delete tmp)
              (set_warned
                 (set_files (fun fs => proc_writes p ∪ fs)
                    (add_spawned cmd (prepared self fname code_bytes w)))) in
  render_ditaa self code options prefix w = (Raise UnicodeDecodeError, w')
  ∧ w_warned w' = true
  ∧ render_ditaa_html self node code options prefix imgcls alt w
    = (Raise UnicodeDecodeError, w').
Proof.
  intros Hname Hfile Hwarned Hcode tmp cmd Hpopen Hcomm Hexit Hdecode w'.
  assert (Hrender : render_ditaa self code options prefix w
                    = (Raise UnicodeDecodeError, w')).
  { rewrite (render_ditaa_runs _ _ _ _ _ _ _ Hname Hfile Hwarned Hcode).
    fold tmp cmd. unfold guarded_run. unfold_actions.
    rewrite (launch_step_launched _ _ _ Hpopen).
    rewrite (communicate_step_returned _ _ _ _ Hcomm).
    unfold drain_step, exit_check. unfold_actions.
    rewrite (proj2 (Z.eqb_neq _ _) Hexit). simpl.
    destruct Hdecode as [Herr|Hout].
    - by rewrite Herr.
    - rewrite Hout. by destruct (sys_decode stderr). }
  split; [exact Hrender|]. split; [reflexivity|].
  unfold render_ditaa_html. unfold_actions. by rewrite Hrender.
Qed.

(** C5.  An error of [communicate] that is an instance of [OSError] and
    carries [EINVAL] is not recovered from.  The first handler re-raises
    it, the handler written for [EINVAL] is never tried: the call does not
    read the pipes, it raises that error (after removing the temporary
    file). *)
Theorem communicate_EINVAL_propagates
    self code options prefix w fname code_bytes p err :
  outfname self code options prefix = Some fname →
  w_files w !! outfullfn_of self fname = None →
  w_warned w = false →
  encode_utf8 code = Some code_bytes →
  let tmp := temp_of self fname w in
  let cmd := ditaa_cmd_of self options tmp (outfullfn_of self fname) in
  os_popen (prepared self fname code_bytes w) cmd = Launched p →
  proc_communicate p code_bytes = Raise (EnvironmentExc err) →
  inst_OSError err = true →
  errno err = EINVAL →
  render_ditaa self code options prefix w =
  (Raise (EnvironmentExc err),
   set_files (delete tmp) (add_spawned cmd (prepared self fname code_bytes w))).
Proof.
  intros Hname Hfile Hwarned Hcode tmp cmd Hpopen Hcomm Hcls Herrno.
  rewrite (render_ditaa_runs _ _ _ _ _ _ _ Hname Hfile Hwarned Hcode).
  fold tmp cmd. unfold guarded_run. unfold_actions.
  rewrite (launch_step_launched _ _ _ Hpopen).
  rewrite (communicate_step_OSError _ _ _ _ Hcomm Hcls), Herrno.
  reflexivity.
Qed.

(** C6.  A call either creates no temporary file, or creates exactly one
    and that file does not exist when the call is over, whether it
    returns or raises. *)
Theorem temp_file_always_deleted
    (self : builder) (code : pystr) (options : list pystr) (prefix : pystr)
    (w : world) :
  let w' := (render_ditaa self code options prefix w).2 in
  w_temps w' = w_temps w
  ∨ ∃ tmp, w_temps w' = w_temps w ++ [tmp] ∧ w_files w' !! tmp = None.
Proof.
  unfold render_ditaa.
  destruct (outfname self code options prefix) as [fname|]; [|by left].
  unfold_actions.
  destruct (bool_decide _); [by left|]. simpl.
  destruct (w_warned w); [by left|].
  destruct (encode_utf8 code) as [code_bytes|]; [|by left].
  unfold named_temporary_file. simpl.
  destruct (guarded_run _ _ _ _) as [r w'] eqn:Hrun.
  apply guarded_run_temp in Hrun as [Htemps Hgone]. simpl in Htemps.
  right. eexists.
  destruct r as [[r|]|e]; simpl; split; eassumption.
Qed.
End Rendering.

(** ** HTML embedding *)

Section Embedding.
Context `{host : Host} `{os : OS}.

Lemma add_body_add_body (a b : list pystr) (w : world) :
  add_body b (add_body a w) = add_body (a ++ b) w.
Proof. unfold add_body. simpl. by rewrite <- app_assoc. Qed.

(** C7.  When [render_ditaa] returns [(fname, outfn)], the HTML visitor
    appends three pieces to the body and skips the node: the start tag of
    a [span] with class [ditaa] when the node's [inline] attribute is
    set, of a [p] with that class otherwise; then an [img] tag whose
    [src] is [fname] when there is one, and the escaped diagram text when
    [fname] is [None]; then the matching end tag. *)
Theorem html_embedding_wrapper
    (self : builder) (node : ditaa) (code : pystr) (options : list pystr)
    (prefix : pystr) (imgcls alt : option pystr) (w : world)
    (fname outfn : option pystr) (w1 : world) :
  render_ditaa self code options prefix w = (Ret (fname, outfn), w1) →
  let wrapper :=
    if default false (node_inline node) then lit "span" else lit "p" in
  let inner :=
    match fname with
    | Some f => lit "<img src=" ++ DQUOTE ++ f ++ DQUOTE ++ lit "/>" ++ NL
    | None => html_encode code
    end in
  render_ditaa_html self node code options prefix imgcls alt w =
  (Raise SkipNode,
   add_body [starttag (node_ids node) (node_classes node) wrapper (lit "ditaa");
             inner;
             lit "</" ++ wrapper ++ lit ">" ++ NL] w1).
Proof.
  intros Hrender wrapper inner.
  unfold render_ditaa_html, embed_html. unfold_actions. rewrite Hrender.
  fold (wrapper_of node). change (wrapper_of node) with wrapper.
  destruct fname as [f|]; simpl; by rewrite !add_body_add_body.
Qed.

(** On a [DitaaError] nothing is wrapped: the visitor appends the system
    message, warns and skips the node. *)
Lemma html_embedding_error self node code options prefix imgcls alt w info w1 :
  render_ditaa self code options prefix w = (Raise (DitaaError info), w1) →
  render_ditaa_html self node code options prefix imgcls alt w =
  (Raise SkipNode,
   add_warning info (add_body (system_message_markup info (node_code node)) w1)).
Proof.
  intros Hrender. unfold render_ditaa_html. unfold_actions. by rewrite Hrender.
Qed.

(** C10.  Two nodes that differ in their [alt] attribute only are
    embedded alike: same outcome, same body, same state.  The [alt]
    parameter of [render_ditaa_html] does not enter its result either, and
    the image tag is [<img src="...">] closed by [/>] and a newline, with
    nothing but the file name in between. *)
Theorem html_markup_independent_of_alt :
  (∀ (self : builder) (node : ditaa) (alt1 alt2 : option pystr) (w : world),
      html_visit_ditaa self (with_alt alt1 node) w =
      html_visit_ditaa self (with_alt alt2 node) w)
  ∧ (∀ self node code options prefix imgcls alt w,
      render_ditaa_html self node code options prefix imgcls alt w =
      render_ditaa_html self node code options prefix None None w)
  ∧ (∀ fname : pystr,
      img_tag fname = lit "<img src=" ++ [34] ++ fname ++ [34] ++ lit "/>" ++ [10]).
Proof. repeat split. Qed.
End Embedding.

(** ** The directive *)

Section DirectiveProperties.
Context `{host : Host} `{os : OS}.

(** C8.  With both a filename argument and content, [run] returns one
    system message and no diagram node, and the reporter has received
    exactly that one warning. *)
Theorem both_content_and_filename_warns (self : directive) (w : world) :
  arguments self ≠ [] →
  content self ≠ [] →
  ∃ msg nodes w',
    run self w = (Ret nodes, w')
    ∧ nodes = [SystemMessage msg (lineno self)]
    ∧ count_diagrams nodes = 0%nat
    ∧ count_warnings nodes = 1%nat
    ∧ w_reported w' = w_reported w ++ [(msg, lineno self)].
Proof.
  intros Hargs Hcontent. unfold run.
  destruct (arguments self) as [|arg0 args]; [done|].
  destruct (content self) as [|line lines]; [done|].
  eexists _, _, _. split; [reflexivity|]. done.
Qed.

(** Every diagram node [run] returns is [make_node] of some text. *)
Lemma run_diagram self w nodes w' n :
  run self w = (Ret nodes, w') →
  Diagram n ∈ nodes →
  ∃ dotcode, n = make_node self dotcode.
Proof.
  unfold run, read_utf8, reporter_warning. unfold_actions. intros Hrun Hin.
  repeat (case_match; simplify_eq/=);
    repeat match goal with
           | H : _ ∈ [_] |- _ => apply list_elem_of_singleton in H
           end;
    simplify_eq; eauto.
Qed.

(** C9.  A diagram node made by the directive has the empty options
    list, whatever the directive's arguments, content and options.  So
    the visitors pass [[]] as the per-call options, the argument vector
    is the tool, its configured arguments, the temporary file and the
    output file, and the key that is hashed has [[]] between the diagram
    text and the tool path. *)
Theorem directive_nodes_have_no_options
    (self : directive) (w : world) (nodes : list doc_node) (w' : world)
    (n : ditaa) :
  run self w = (Ret nodes, w') →
  Diagram n ∈ nodes →
  node_options n = []
  ∧ (∀ b, html_visit_ditaa b n =
          render_ditaa_html b n (node_code n) [] (lit "ditaa") None None)
  ∧ (∀ b, latex_visit_ditaa b n =
          render_ditaa_latex b n (node_code n) [] (lit "ditaa"))
  ∧ (∀ b tmp out,
        ditaa_cmd_of b (node_options n) tmp out =
        config_ditaa b :: config_ditaa_args b ++ [tmp; out])
  ∧ (∀ b, hashkey b (node_code n) (node_options n) =
          encode_utf8 (node_code n ++ lit "[]" ++ config_ditaa b
                       ++ str_list (config_ditaa_args b))).
Proof.
  intros Hrun Hin.
  destruct (run_diagram _ _ _ _ _ Hrun Hin) as [dotcode ->].
  repeat split. intros b. by rewrite hashkey_concat.
Qed.
End DirectiveProperties.

(** * Further properties *)

(** ** The bytes of an encoded code point, in arithmetic *)

Lemma lor_high (k n z : Z) :
  0 <= n → 0 <= z < 2 ^ n → Z.lor (k * 2 ^ n) z = k * 2 ^ n + z.
Proof.
  intros Hn [Hz0 Hz].
  assert (Hdisjoint : Z.land (k * 2 ^ n) z = 0).
  { apply Z.bits_inj'. intros m Hm.
    rewrite Z.land_spec, Z.bits_0, <- Z.shiftl_mul_pow2 by lia.
    destruct (Z.lt_ge_cases m n) as [Hlow|Hhigh].
    - by rewrite Z.shiftl_spec_low.
    - destruct (Z.eq_dec z 0) as [->|Hnz].
      + by rewrite Z.bits_0, andb_false_r.
      + rewrite (Z.bits_above_log2 z m), andb_false_r; [done|lia|].
        apply Z.lt_le_trans with n; [|lia].
        apply Z.log2_lt_pow2; lia. }
  rewrite <- (Z.lxor_lor _ _ Hdisjoint).
  symmetry. by apply Z.add_nocarry_lxor.
Qed.

Lemma low6 (x : Z) : Z.lor 0x80 (Z.land x 0x3F) = 128 + x mod 64.
Proof.
  change 0x3F with (Z.ones 6). rewrite Z.land_ones by lia.
  change 0x80 with (2 * 2 ^ 6).
  rewrite lor_high; [reflexivity|lia|]. apply Z.mod_pos_bound. lia.
Qed.

(** The four shapes of [encode_cp]. *)
Lemma encode_cp_shape (c : Z) (bs : bytes) :
  encode_cp c = Some bs →
  (0 <= c < 0x80 ∧ bs = [c])
  ∨ (0x80 <= c < 0x800 ∧ bs = [192 + c / 64; 128 + c mod 64])
  ∨ (0x800 <= c < 0x10000 ∧ ¬ (0xD800 <= c <= 0xDFFF)
     ∧ bs = [224 + c / 4096; 128 + (c / 64) mod 64; 128 + c mod 64])
  ∨ (0x10000 <= c < 0x110000
     ∧ bs = [240 + c / 262144; 128 + (c / 4096) mod 64;
             128 + (c / 64) mod 64; 128 + c mod 64]).
Proof.
  unfold encode_cp.
  destruct (Z.ltb_spec c 0); [discriminate|].
  destruct (Z.ltb_spec c 0x80); [intros [= <-]; left; split; [lia|done]|].
  destruct (Z.ltb_spec c 0x800).
  { intros [= <-]. right; left. split; [lia|].
    rewrite low6, Z.shiftr_div_pow2 by lia.
    change 0xC0 with (6 * 2 ^ 5). rewrite lor_high; [reflexivity|lia|].
    change (2 ^ 6) with 64. change (2 ^ 5) with 32.
    split; [apply Z.div_pos; lia | apply Z.div_lt_upper_bound; lia]. }
  destruct (Z.ltb_spec c 0x10000).
  { destruct (Z.leb_spec 0xD800 c), (Z.leb_spec c 0xDFFF); simpl;
      try discriminate; intros [= <-]; right; right; left;
      (split; [lia|]; split; [lia|]);
      rewrite !low6, !Z.shiftr_div_pow2 by lia;
      change 0xE0 with (14 * 2 ^ 4);
      (rewrite lor_high; [reflexivity|lia|]);
      change (2 ^ 12) with 4096; change (2 ^ 4) with 16;
      (split; [apply Z.div_pos; lia | apply Z.div_lt_upper_bound; lia]). }
  destruct (Z.ltb_spec c 0x110000); [|discriminate].
  intros [= <-]. right; right; right. split; [lia|].
  rewrite !low6, !Z.shiftr_div_pow2 by lia.
  change 0xF0 with (30 * 2 ^ 3). rewrite lor_high; [reflexivity|lia|].
  change (2 ^ 18) with 262144. change (2 ^ 3) with 8.
  split; [apply Z.div_pos; lia | apply Z.div_lt_upper_bound; lia].
Qed.

(** UTF-8 is a prefix code: the first encoded code point of a byte string
    is determined by the bytes. *)
Lemma encode_cp_prefix_free (c1 c2 : Z) (b1 b2 r1 r2 : bytes) :
  encode_cp c1 = Some b1 →
  encode_cp c2 = Some b2 →
  b1 ++ r1 = b2 ++ r2 →
  c1 = c2 ∧ r1 = r2.
Proof.
  intros H1 H2 Heq.
  assert (c1 = c2) as ->.
  { apply encode_cp_shape in H1. apply encode_cp_shape in H2.
    destruct H1 as [[? ->]|[[? ->]|[(? & ? & ->)|[? ->]]]];
      destruct H2 as [[? ->]|[[? ->]|[(? & ? & ->)|[? ->]]]];
      simplify_eq/=; Z.div_mod_to_equations; lia. }
  split; [reflexivity|].
  rewrite H1 in H2. injection H2 as <-. by apply app_inv_head in Heq.
Qed.

Lemma encode_cp_nonempty (c : Z) : encode_cp c ≠ Some [].
Proof.
  intros H. apply encode_cp_shape in H.
  destruct H as [[? ?]|[[? ?]|[(? & ? & ?)|[? ?]]]]; discriminate.
Qed.

(** Two texts with the same encoding are the same text. *)
Lemma encode_utf8_inj (s1 s2 : pystr) (key : bytes) :
  encode_utf8 s1 = Some key → encode_utf8 s2 = Some key → s1 = s2.
Proof.
  revert s2 key. induction s1 as [|c1 s1 IH]; intros [|c2 s2] key; simpl.
  - done.
  - intros [= <-].
    destruct (encode_cp c2) as [b2|] eqn:Hc2; [|discriminate].
    destruct (encode_utf8 s2); [|discriminate].
    intros [= Hnil].
    assert (b2 = []) as -> by (by destruct b2).
    by apply encode_cp_nonempty in Hc2.
  - destruct (encode_cp c1) as [b1|] eqn:Hc1; [|discriminate].
    destruct (encode_utf8 s1); [|discriminate].
    intros [= <-] [= Hnil].
    assert (b1 = []) as -> by (by destruct b1).
    by apply encode_cp_nonempty in Hc1.
  - destruct (encode_cp c1) as [b1|] eqn:Hc1; [|discriminate].
    destruct (encode_utf8 s1) as [k1|] eqn:Hs1; [|discriminate].
    destruct (encode_cp c2) as [b2|] eqn:Hc2; [|discriminate].
    destruct (encode_utf8 s2) as [k2|] eqn:Hs2; [|discriminate].
    intros [= <-] [= Heq].
    destruct (encode_cp_prefix_free _ _ _ _ _ _ Hc2 Hc1 Heq) as [-> ->].
    f_equal. by eapply IH.
Qed.

(** ** Reading back what was encoded *)

(** Settles a comparison of the goal one way or the other by arithmetic. *)
Ltac settle_comparisons :=
  repeat match goal with
         | |- context [?a <=? ?b] =>
             first [ replace (a <=? b) with true
                       by (symmetry; apply Z.leb_le; Z.div_mod_to_equations; lia)
                   | replace (a <=? b) with false
                       by (symmetry; apply Z.leb_gt; Z.div_mod_to_equations; lia) ]
         | |- context [?a <? ?b] =>
             first [ replace (a <? b) with true
                       by (symmetry; apply Z.ltb_lt; Z.div_mod_to_equations; lia)
                   | replace (a <? b) with false
                       by (symmetry; apply Z.ltb_ge; Z.div_mod_to_equations; lia) ]
         | |- context [?a =? ?b] =>
             first [ replace (a =? b) with true
                       by (symmetry; apply Z.eqb_eq; Z.div_mod_to_equations; lia)
                   | replace (a =? b) with false
                       by (symmetry; apply Z.eqb_neq; Z.div_mod_to_equations; lia) ]
         end;
  cbn [andb orb negb].

(** The reader undoes the encoder, one code point at a time. *)
Lemma utf8_read_encode_cp (c : Z) (bs rest : bytes) :
  encode_cp c = Some bs →
  utf8_read (bs ++ rest) = cons c <$> utf8_read rest.
Proof.
  intros H. apply encode_cp_shape in H.
  destruct H as [[Hc ->]|[[Hc ->]|[(Hc & Hsur & ->)|[Hc ->]]]];
    cbn [app utf8_read]; unfold second_of_three, second_of_four, is_cont.
  - settle_comparisons. reflexivity.
  - settle_comparisons. do 2 f_equal. Z.div_mod_to_equations; lia.
  - destruct (Z.eq_dec (c / 4096) 0), (Z.eq_dec (c / 4096) 13);
      settle_comparisons; do 2 f_equal; Z.div_mod_to_equations; lia.
  - destruct (Z.eq_dec (c / 262144) 0), (Z.eq_dec (c / 262144) 4);
      settle_comparisons; do 2 f_equal; Z.div_mod_to_equations; lia.
Qed.

(** Every text that can be encoded is read back as itself: on the files
    the encoder can produce the reader is its inverse. *)
Lemma utf8_read_encode_utf8 (s : pystr) (data : bytes) :
  encode_utf8 s = Some data → utf8_read data = Some s.
Proof.
  revert data. induction s as [|c s IH]; simpl; intros data.
  - by intros [= <-].
  - destruct (encode_cp c) as [bs|] eqn:Hc; [|discriminate].
    destruct (encode_utf8 s) as [rest|]; [|discriminate].
    intros [= <-]. rewrite (utf8_read_encode_cp _ _ _ Hc), (IH rest eq_refl).
    reflexivity.
Qed.

(** ** [not dotcode.strip()] *)

Lemma lstrip_empty (s : pystr) : lstrip s = [] ↔ forallb isspace s = true.
Proof.
  induction s as [|c s IH]; simpl; [done|].
  destruct (isspace c); simpl; [exact IH|]. split; discriminate.
Qed.

(** The test of line 81 as the embedding has it agrees with [strip]. *)
Lemma strip_is_empty_spec (s : pystr) : strip s = [] ↔ strip_is_empty s = true.
Proof.
  unfold strip, strip_is_empty. split.
  - intros H. apply (f_equal reverse) in H.
    rewrite reverse_involutive, reverse_nil in H.
    destruct (forallb isspace s) eqn:Hall; [done|].
    exfalso.
    assert (Hsome : lstrip s ≠ []).
    { intros E. apply lstrip_empty in E. congruence. }
    (* the stripped text starts with a character that is not white space,
       so its reversal is not all white space *)
    assert (Hkeep : ∀ t, lstrip t ≠ [] → ∃ c u, lstrip t = c :: u ∧ isspace c = false).
    { induction t as [|c t IHt]; simpl; [done|].
      destruct (isspace c) eqn:Hc; [exact IHt|]. eauto. }
    destruct (Hkeep s Hsome) as (c & u & Hcu & Hc).
    apply lstrip_empty in H. rewrite Hcu, reverse_cons in H.
    rewrite forallb_app in H. simpl in H. rewrite Hc in H.
    by destruct (forallb isspace (reverse u)).
  - intros Hall. apply lstrip_empty in Hall. by rewrite Hall.
Qed.

Lemma strip_is_empty_app (a b : pystr) :
  strip_is_empty (a ++ b) = strip_is_empty a && strip_is_empty b.
Proof. apply forallb_app. Qed.

(** A text made of lines is blank exactly when every line is. *)
Lemma strip_is_empty_join (lines : list pystr) :
  strip_is_empty (join NL lines) = forallb strip_is_empty lines.
Proof.
  induction lines as [|l rest IH]; [reflexivity|].
  destruct rest as [|l' rest].
  - simpl. by rewrite andb_true_r.
  - change (join NL (l :: l' :: rest)) with (l ++ NL ++ join NL (l' :: rest)).
    rewrite !strip_is_empty_app, IH. reflexivity.
Qed.

(** ** More on the cache key *)

Section CacheKeyMore.
Context `{host : Host}.

Lemma str_list_nonempty (l : list pystr) : str_list l ≠ [].
Proof. unfold str_list. discriminate. Qed.

(** X1.  Under one configuration and one options list, two different
    diagram texts are never hashed from the same key: the byte string given
    to sha1 determines the text. *)
Theorem hashkey_separates_texts
    (self : builder) (code1 code2 : pystr) (options : list pystr)
    (key1 key2 : bytes) :
  code1 ≠ code2 →
  hashkey self code1 options = Some key1 →
  hashkey self code2 options = Some key2 →
  key1 ≠ key2.
Proof.
  intros Hne H1 H2 <-. apply Hne.
  rewrite hashkey_concat in H1, H2.
  pose proof (encode_utf8_inj _ _ _ H1 H2) as Heq.
  by apply app_inv_tail in Heq.
Qed.

(** X2.  The key does not record where one component ends and the next
    begins.  Moving text from the end of the diagram into the front of the
    tool path, across the printed options, gives a different input with the
    same file name. *)
Theorem cache_key_boundary_collision
    (img out tool : pystr) (args : list pystr) (code x : pystr)
    (options : list pystr) (prefix : pystr) :
  outfname (Builder img out tool args) (code ++ str_list options ++ x) options prefix
  = outfname (Builder img out (x ++ str_list options ++ tool) args) code options prefix
  ∧ code ++ str_list options ++ x ≠ code.
Proof.
  split.
  - unfold outfname. rewrite !hashkey_concat.
    cbn [config_ditaa config_ditaa_args]. by rewrite <- !app_assoc.
  - intros Heq. rewrite <- (app_nil_r code) in Heq at 2.
    apply app_inv_head in Heq. apply app_eq_nil in Heq as [Hnil _].
    by apply str_list_nonempty in Hnil.
Qed.

Lemma hashkey_unencodable (self : builder) (code : pystr) (options : list pystr) :
  encode_utf8 code = None → hashkey self code options = None.
Proof. intros H. unfold hashkey. by rewrite H. Qed.
End CacheKeyMore.

(** ** More on rendering *)

Section RenderingMore.
Context `{host : Host} `{os : OS}.

(** X3.  A diagram text that has no UTF-8 encoding (a lone surrogate) makes
    [render_ditaa] raise [UnicodeEncodeError] before it looks at anything:
    the state is unchanged, and neither visitor turns the error into a
    warning or a skipped node. *)
Theorem unencodable_text_raises
    (self : builder) (node : ditaa) (code : pystr) (options : list pystr)
    (prefix : pystr) (imgcls alt : option pystr) (w : world) :
  encode_utf8 code = None →
  render_ditaa self code options prefix w = (Raise UnicodeEncodeError, w)
  ∧ render_ditaa_html self node code options prefix imgcls alt w
    = (Raise UnicodeEncodeError, w)
  ∧ render_ditaa_latex self node code options prefix w
    = (Raise UnicodeEncodeError, w).
Proof.
  intros Hcode.
  assert (Hrender : render_ditaa self code options prefix w
                    = (Raise UnicodeEncodeError, w)).
  { unfold render_ditaa, outfname. by rewrite (hashkey_unencodable _ _ _ Hcode). }
  split; [exact Hrender|].
  unfold render_ditaa_html, render_ditaa_latex. unfold_actions.
  by rewrite Hrender.
Qed.

(** X4.  The successful run: the tool is launched once, with the configured
    tool and arguments, the per-call options, the temporary file and the
    output path, in that order; the call returns the two paths, leaves the
    flag unset and warns of nothing.  Whether a file then exists at the
    returned path is up to the tool: the call does not look. *)
Theorem render_success
    self code options prefix w fname code_bytes p out :
  outfname self code options prefix = Some fname →
  w_files w !! outfullfn_of self fname = None →
  w_warned w = false →
  encode_utf8 code = Some code_bytes →
  let tmp := temp_of self fname w in
  let full := outfullfn_of self fname in
  os_popen (prepared self fname code_bytes w) (ditaa_cmd_of self options tmp full)
  = Launched p →
  proc_communicate p code_bytes = Ret out →
  proc_returncode p = 0 →
  ∃ w',
    render_ditaa self code options prefix w
    = (Ret (Some (outrelfn_of self fname), Some full), w')
    ∧ w_spawned w' =
      w_spawned w
      ++ [config_ditaa self :: config_ditaa_args self ++ options ++ [tmp; full]]
    ∧ w_warned w' = false
    ∧ w_warnings w' = w_warnings w
    ∧ (tmp ≠ full → w_files w' !! full = proc_writes p !! full).
Proof.
  intros Hname Hfile Hwarned Hcode tmp full Hpopen Hcomm Hexit.
  rewrite (render_ditaa_runs _ _ _ _ _ _ _ Hname Hfile Hwarned Hcode).
  fold tmp full. unfold guarded_run. unfold_actions.
  rewrite (launch_step_launched _ _ _ Hpopen).
  rewrite (communicate_step_returned _ _ _ _ Hcomm).
  unfold drain_step, exit_check. unfold_actions. destruct out as [so se].
  rewrite Hexit. simpl.
  eexists. split; [reflexivity|]. simpl.
  split; [reflexivity|]. split; [exact Hwarned|]. split; [reflexivity|].
  intros Hne. fold tmp.
  rewrite lookup_delete_ne by done.
  rewrite lookup_union_l; [reflexivity|].
  by rewrite !lookup_insert_ne.
Qed.

(** X5.  Rendering is cached across calls: once a successful run has left
    the image at the output path, the same call made again returns the same
    paths from the cache, whatever the operating system would answer, and
    changes nothing. *)
Theorem render_twice_is_cache_hit
    self code options prefix w fname code_bytes p out :
  outfname self code options prefix = Some fname →
  w_files w !! outfullfn_of self fname = None →
  w_warned w = false →
  encode_utf8 code = Some code_bytes →
  let tmp := temp_of self fname w in
  let full := outfullfn_of self fname in
  os_popen (prepared self fname code_bytes w) (ditaa_cmd_of self options tmp full)
  = Launched p →
  proc_communicate p code_bytes = Ret out →
  proc_returncode p = 0 →
  is_Some (proc_writes p !! full) →
  tmp ≠ full →
  let w1 := (render_ditaa self code options prefix w).2 in
  render_ditaa self code options prefix w1
  = (Ret (Some (outrelfn_of self fname), Some full), w1).
Proof.
  intros Hname Hfile Hwarned Hcode tmp full Hpopen Hcomm Hexit Hwritten Hne w1.
  apply render_ditaa_cached; [exact Hname|].
  subst w1.
  rewrite (render_ditaa_runs _ _ _ _ _ _ _ Hname Hfile Hwarned Hcode).
  fold tmp full. unfold guarded_run. unfold_actions.
  rewrite (launch_step_launched _ _ _ Hpopen).
  rewrite (communicate_step_returned _ _ _ _ Hcomm).
  unfold drain_step, exit_check. unfold_actions. destruct out as [so se].
  rewrite Hexit. simpl. fold tmp full.
  rewrite lookup_delete_ne by done.
  destruct Hwritten as [img Himg].
  rewrite (lookup_union_Some_l _ _ _ _ Himg). eauto.
Qed.

(** What a call may touch.  Used for the invariants below. *)
Lemma render_ditaa_cases self code options prefix w :
  let '(r, w') := render_ditaa self code options prefix w in
  w_body w' = w_body w
  ∧ w_reported w' = w_reported w
  ∧ w_dependencies w' = w_dependencies w
  ∧ (w_warned w = true → w' = w)
  ∧ ((w_spawned w' = w_spawned w ∧ w_temps w' = w_temps w)
     ∨ ∃ fname tmp,
         outfname self code options prefix = Some fname
         ∧ w_temps w' = w_temps w ++ [tmp]
         ∧ w_spawned w' =
           w_spawned w
           ++ [config_ditaa self :: config_ditaa_args self ++ options
               ++ [tmp; outfullfn_of self fname]])
  ∧ (∀ a b, r = Ret (a, b) →
       (a = None ∧ b = None ∧ w_warned w' = true)
       ∨ (∃ fname,
             outfname self code options prefix = Some fname
             ∧ a = Some (outrelfn_of self fname)
             ∧ b = Some (outfullfn_of self fname)
             ∧ w_warned w' = w_warned w
             ∧ w_warnings w' = w_warnings w)).
Proof.
  unfold render_ditaa.
  destruct (outfname self code options prefix) as [fname|] eqn:Hname.
  2: { repeat split; try done. by left. }
  unfold_actions.
  destruct (bool_decide _).
  { repeat split; try done; [by left|]. intros a b [= <- <-]. right. eauto 10. }
  simpl. destruct (w_warned w) eqn:Hwarned.
  { repeat split; try done; [by left|]. intros a b [= <- <-]. by left. }
  destruct (encode_utf8 code) as [code_bytes|].
  2: { repeat split; try done. by left. }
  unfold named_temporary_file, guarded_run, launch_step, popen,
    communicate_step, communicate, drain_step, exit_check.
  unfold_actions.
  repeat (case_match; simplify_eq/=);
    (split; [done|]; split; [done|]; split; [done|]; split; [done|]);
    (split; [right; eauto|]);
    intros a b ?; simplify_eq; first [by left | right; eauto 10].
Qed.

(** X6.  A render call never touches the translator's body, the reporter
    or the recorded dependencies, and a call made with the failure flag set
    changes nothing at all: the flag is never cleared. *)
Theorem render_frame
    (self : builder) (code : pystr) (options : list pystr) (prefix : pystr)
    (w : world) :
  let w' := (render_ditaa self code options prefix w).2 in
  w_body w' = w_body w
  ∧ w_reported w' = w_reported w
  ∧ w_dependencies w' = w_dependencies w
  ∧ (w_warned w = true → w' = w).
Proof.
  pose proof (render_ditaa_cases self code options prefix w) as H.
  destruct (render_ditaa self code options prefix w) as [r w'].
  simpl. tauto.
Qed.

(** X7.  A call launches at most one subprocess and never retries.  It
    either calls [Popen] not at all and creates no temporary file, or calls
    it exactly once, and then the argument vector ends with the temporary
    file created by this very call and the output path of the cache key. *)
Theorem render_spawns_at_most_once
    (self : builder) (code : pystr) (options : list pystr) (prefix : pystr)
    (w : world) :
  let w' := (render_ditaa self code options prefix w).2 in
  (w_spawned w' = w_spawned w ∧ w_temps w' = w_temps w)
  ∨ ∃ fname tmp,
      outfname self code options prefix = Some fname
      ∧ w_temps w' = w_temps w ++ [tmp]
      ∧ w_spawned w' =
        w_spawned w
        ++ [config_ditaa self :: config_ditaa_args self ++ options
            ++ [tmp; outfullfn_of self fname]].
Proof.
  pose proof (render_ditaa_cases self code options prefix w) as H.
  destruct (render_ditaa self code options prefix w) as [r w'].
  simpl. tauto.
Qed.

(** X8.  What a returning call returns.  The pair is either
    [(None, None)], and then the failure flag is set, or the two paths
    computed from the cache key, and then the call has neither set the flag
    nor warned.  No call returns one path without the other. *)
Theorem render_result_shape
    (self : builder) (code : pystr) (options : list pystr) (prefix : pystr)
    (w : world) (a b : option pystr) (w' : world) :
  render_ditaa self code options prefix w = (Ret (a, b), w') →
  (a = None ∧ b = None ∧ w_warned w' = true)
  ∨ (∃ fname,
        outfname self code options prefix = Some fname
        ∧ a = Some (outrelfn_of self fname)
        ∧ b = Some (outfullfn_of self fname)
        ∧ w_warned w' = w_warned w
        ∧ w_warnings w' = w_warnings w).
Proof.
  intros Hrender.
  pose proof (render_ditaa_cases self code options prefix w) as H.
  rewrite Hrender in H. destruct H as (_ & _ & _ & _ & _ & H). by apply H.
Qed.

(** X9.  One failing diagram turns rendering off for the rest of the run.
    After a call in which the tool ended with a nonzero exit code, every
    call whose image is not cached returns [(None, None)] without
    launching anything, whatever its diagram and configuration. *)
Theorem failure_disables_later_renders
    self code options prefix w fname code_bytes p out
    self2 code2 options2 prefix2 fname2 :
  outfname self code options prefix = Some fname →
  w_files w !! outfullfn_of self fname = None →
  w_warned w = false →
  encode_utf8 code = Some code_bytes →
  os_popen (prepared self fname code_bytes w)
    (ditaa_cmd_of self options (temp_of self fname w) (outfullfn_of self fname))
  = Launched p →
  proc_communicate p code_bytes = Ret out →
  proc_returncode p ≠ 0 →
  let w1 := (render_ditaa self code options prefix w).2 in
  outfname self2 code2 options2 prefix2 = Some fname2 →
  w_files w1 !! outfullfn_of self2 fname2 = None →
  render_ditaa self2 code2 options2 prefix2 w1 = (Ret (None, None), w1).
Proof.
  intros Hname Hfile Hwarned Hcode Hpopen Hcomm Hexit w1 Hname2 Hfile2.
  apply (render_ditaa_skipped _ _ _ _ _ fname2); [done|done|].
  subst w1.
  rewrite (render_ditaa_runs _ _ _ _ _ _ _ Hname Hfile Hwarned Hcode).
  unfold guarded_run. unfold_actions.
  rewrite (launch_step_launched _ _ _ Hpopen).
  rewrite (communicate_step_returned _ _ _ _ Hcomm).
  unfold drain_step, exit_check. unfold_actions. destruct out as [so se].
  rewrite (proj2 (Z.eqb_neq _ _) Hexit). simpl.
  destruct (sys_decode se); [destruct (sys_decode so)|]; reflexivity.
Qed.
End RenderingMore.

(** ** More on the visitors *)

Section VisitorsMore.
Context `{host : Host} `{os : OS}.

(** X10.  Neither visitor ever returns normally, and neither lets a
    [DitaaError] out: a visit ends with [SkipNode], or with an exception of
    [render_ditaa] that is not a [DitaaError]. *)
Theorem visitors_always_skip
    (self : builder) (node : ditaa) (code : pystr) (options : list pystr)
    (prefix : pystr) (imgcls alt : option pystr) (w : world) :
  (∃ e, (render_ditaa_html self node code options prefix imgcls alt w).1 = Raise e
        ∧ (e = SkipNode
           ∨ ((render_ditaa self code options prefix w).1 = Raise e
              ∧ ∀ info, e ≠ DitaaError info)))
  ∧ (∃ e, (render_ditaa_latex self node code options prefix w).1 = Raise e
          ∧ (e = SkipNode
             ∨ ((render_ditaa self code options prefix w).1 = Raise e
                ∧ ∀ info, e ≠ DitaaError info))).
Proof.
  unfold render_ditaa_html, render_ditaa_latex, embed_html, on_ditaa_error.
  unfold_actions.
  destruct (render_ditaa self code options prefix w) as [[[fname outfn]|e] w1].
  - split; exists SkipNode; (split; [|by left]); by destruct fname.
  - destruct e; simpl;
      try (split; eexists; (split; [reflexivity|]); right; by split);
      split; exists SkipNode; by split; [|left].
Qed.

(** X11.  LaTeX embedding of what [render_ditaa] returns.  For "no output"
    nothing is appended; for a rendered image one piece is appended, the
    graphics inclusion of the absolute output path (HTML embeds the
    relative one).  In both cases the node is skipped. *)
Theorem latex_embedding
    (self : builder) (node : ditaa) (code : pystr) (options : list pystr)
    (prefix : pystr) (w : world) (a b : option pystr) (w1 : world) :
  render_ditaa self code options prefix w = (Ret (a, b), w1) →
  (a = None
   ∧ render_ditaa_latex self node code options prefix w = (Raise SkipNode, w1))
  ∨ (∃ fname,
        outfname self code options prefix = Some fname
        ∧ a = Some (outrelfn_of self fname)
        ∧ render_ditaa_latex self node code options prefix w
          = (Raise SkipNode,
             add_body [lit "\par\includegraphics{" ++ outfullfn_of self fname
                       ++ lit "}\par"] w1)).
Proof.
  intros Hrender.
  pose proof (render_ditaa_cases self code options prefix w) as H.
  rewrite Hrender in H. destruct H as (_ & _ & _ & _ & _ & H).
  unfold render_ditaa_latex. unfold_actions. rewrite Hrender.
  destruct (H a b eq_refl) as [(-> & -> & _)|(fname & Hname & -> & -> & _)].
  - by left.
  - right. exists fname. done.
Qed.

(** X12.  A [DitaaError] of [render_ditaa] is turned into a warning by both
    visitors: the system message (whose source is the node's own code) is
    rendered into the body, the error text is passed to the builder's
    [warn], the node is skipped, and no wrapper or image markup is
    written. *)
Theorem ditaa_error_becomes_warning
    (self : builder) (node : ditaa) (code : pystr) (options : list pystr)
    (prefix : pystr) (imgcls alt : option pystr) (w : world)
    (info : pystr) (w1 : world) :
  render_ditaa self code options prefix w = (Raise (DitaaError info), w1) →
  let w' := add_warning info
              (add_body (system_message_markup info (node_code node)) w1) in
  render_ditaa_html self node code options prefix imgcls alt w = (Raise SkipNode, w')
  ∧ render_ditaa_latex self node code options prefix w = (Raise SkipNode, w').
Proof.
  intros Hrender w'. unfold render_ditaa_html, render_ditaa_latex.
  unfold_actions. by rewrite Hrender.
Qed.
End VisitorsMore.

(** ** More on the directive *)

Section DirectiveMore.
Context `{host : Host} `{os : OS}.

(** X13.  External-file mode.  With a filename and no content, a readable
    UTF-8 file becomes one diagram node whose code is the file's text, the
    file is registered as a dependency and nothing is reported.  The text
    is not tested for emptiness: an empty file gives a node with empty
    code. *)
Theorem run_external_file
    (self : directive) (w : world) (arg0 : pystr) (rest : list pystr)
    (data : bytes) (text : pystr) :
  arguments self = arg0 :: rest →
  content self = [] →
  w_files w !! (relfn2path arg0).2 = Some data →
  codec_utf8_decode data = Some text →
  ∃ n,
    run self w = (Ret [Diagram n], add_dependency (relfn2path arg0).1 w)
    ∧ node_code n = text
    ∧ node_options n = []
    ∧ node_alt n = opt_alt (options self)
    ∧ node_caption n = opt_caption (options self)
    ∧ node_inline n = Some (opt_inline (options self)).
Proof.
  intros Hargs Hcontent Hfile Hdecode.
  exists (make_node self text). split; [|done].
  unfold run, read_utf8. rewrite Hargs, Hcontent.
  destruct (relfn2path arg0) as [rel filename]. simpl in *.
  unfold_actions. simpl. by rewrite Hfile, Hdecode.
Qed.

(** X14.  External-file mode, file missing.  The directive returns one
    warning that quotes the absolute file name and no node; the file has
    been registered as a dependency all the same, before the attempt to
    open it. *)
Theorem run_missing_file
    (self : directive) (w : world) (arg0 : pystr) (rest : list pystr) :
  arguments self = arg0 :: rest →
  content self = [] →
  w_files w !! (relfn2path arg0).2 = None →
  ∃ msg w',
    run self w = (Ret [SystemMessage msg (lineno self)], w')
    ∧ contains (repr_str (relfn2path arg0).2) msg
    ∧ w_reported w' = w_reported w ++ [(msg, lineno self)]
    ∧ w_dependencies w' = w_dependencies w ++ [(relfn2path arg0).1].
Proof.
  intros Hargs Hcontent Hfile.
  unfold run, read_utf8, reporter_warning. rewrite Hargs, Hcontent.
  destruct (relfn2path arg0) as [rel filename]. simpl in *.
  unfold_actions. simpl. rewrite Hfile.
  eexists _, _. split; [reflexivity|]. split; [|done].
  exists (lit "External Ditaa file "), (lit " not found or reading it failed").
  reflexivity.
Qed.

(** X15.  External-file mode, file on which the UTF-8 reader raises
    [UnicodeDecodeError] (an invalid byte; a sequence cut off by the end of
    the file is not such a case, the reader drops it).  The decoding error
    is not among the exceptions the directive catches: it propagates, no
    warning is reported and no node is made. *)
Theorem run_undecodable_file
    (self : directive) (w : world) (arg0 : pystr) (rest : list pystr)
    (data : bytes) :
  arguments self = arg0 :: rest →
  content self = [] →
  w_files w !! (relfn2path arg0).2 = Some data →
  codec_utf8_decode data = None →
  ∃ w',
    run self w = (Raise UnicodeDecodeError, w')
    ∧ w_reported w' = w_reported w.
Proof.
  intros Hargs Hcontent Hfile Hdecode.
  unfold run, read_utf8. rewrite Hargs, Hcontent.
  destruct (relfn2path arg0) as [rel filename]. simpl in *.
  unfold_actions. simpl. rewrite Hfile, Hdecode.
  eexists. split; reflexivity.
Qed.

(** X16.  Inline mode.  Without a filename the directive warns, and makes
    no node, exactly when every content line is blank (in particular when
    there is no line); otherwise the node's code is the lines joined by
    newlines, leading and trailing blank lines included. *)
Theorem run_inline_content (self : directive) (w : world) :
  arguments self = [] →
  (forallb strip_is_empty (content self) = true →
     ∃ msg, run self w
            = (Ret [SystemMessage msg (lineno self)],
               add_reported msg (lineno self) w))
  ∧ (forallb strip_is_empty (content self) = false →
     ∃ n, run self w = (Ret [Diagram n], w)
          ∧ node_code n = join NL (content self)).
Proof.
  intros Hargs. unfold run, reporter_warning. rewrite Hargs.
  rewrite strip_is_empty_join. unfold_actions.
  split; intros ->; eexists; [reflexivity|]. split; reflexivity.
Qed.

(** X17.  Whenever [run] returns, it returns exactly one node, a warning
    or a diagram; the reporter has received as many warnings as the list
    holds; and the directive has written no file, launched nothing and
    left the failure flag and the translator's body alone. *)
Theorem run_returns_one_node
    (self : directive) (w : world) (nodes : list doc_node) (w' : world) :
  run self w = (Ret nodes, w') →
  length nodes = 1%nat
  ∧ (count_diagrams nodes + count_warnings nodes = 1)%nat
  ∧ length (w_reported w') = (length (w_reported w) + count_warnings nodes)%nat
  ∧ w_files w' = w_files w
  ∧ w_spawned w' = w_spawned w
  ∧ w_warned w' = w_warned w
  ∧ w_body w' = w_body w.
Proof.
  unfold run, read_utf8, reporter_warning. unfold_actions.
  destruct (arguments self) as [|arg0 rest].
  - destruct (strip_is_empty _); intros [= <- <-]; repeat split;
      cbn [w_reported add_reported]; rewrite ?length_app, ?Nat.add_0_r;
      reflexivity.
  - destruct (content self) as [|line lines].
    + destruct (relfn2path arg0) as [rel filename]. cbn [w_files add_dependency].
      destruct (w_files w !! filename) as [data|].
      * destruct (codec_utf8_decode data); intros [= <- <-]; repeat split;
          cbn [w_reported add_dependency]; rewrite ?Nat.add_0_r; reflexivity.
      * intros [= <- <-]; repeat split;
          cbn [w_reported add_reported add_dependency]; rewrite ?length_app;
          reflexivity.
    + intros [= <- <-]; repeat split;
        cbn [w_reported add_reported]; rewrite ?length_app; reflexivity.
Qed.

(** X18.  The directive's options reach the node unchanged, and the
    [inline] flag decides the HTML wrapper: a node made from a directive
    with [inline] is wrapped in [span], one without in [p]. *)
Theorem directive_options_reach_node
    (self : directive) (w : world) (nodes : list doc_node) (w' : world)
    (n : ditaa) :
  run self w = (Ret nodes, w') →
  Diagram n ∈ nodes →
  wrapper_of n = (if opt_inline (options self) then lit "span" else lit "p")
  ∧ node_alt n = opt_alt (options self)
  ∧ node_caption n = opt_caption (options self)
  ∧ node_ids n = [] ∧ node_classes n = [].
Proof.
  intros Hrun Hin.
  destruct (run_diagram _ _ _ _ _ Hrun Hin) as [dotcode ->].
  done.
Qed.
End DirectiveMore.

(** ** Broken pipes and the fallback, end to end *)

Section Recovery.
Context `{host : Host} `{os : OS}.

(** X19.  A broken pipe is not an error of the call.  When [communicate]
    fails with an [OSError] carrying [EPIPE], the streams are read from the
    pipes, the process is waited for, and the call ends as the exit code
    says: with the two paths for 0, with the failure flag set and an
    exception otherwise.  The temporary file is removed in both cases. *)
Theorem broken_pipe_is_recovered
    self code options prefix w fname code_bytes p err :
  outfname self code options prefix = Some fname →
  w_files w !! outfullfn_of self fname = None →
  w_warned w = false →
  encode_utf8 code = Some code_bytes →
  let tmp := temp_of self fname w in
  let cmd := ditaa_cmd_of self options tmp (outfullfn_of self fname) in
  os_popen (prepared self fname code_bytes w) cmd = Launched p →
  proc_communicate p code_bytes = Raise (EnvironmentExc err) →
  inst_OSError err = true →
  errno err = EPIPE →
  ∃ r w',
    render_ditaa self code options prefix w = (r, w')
    ∧ w_files w' !! tmp = None
    ∧ (proc_returncode p = 0 →
         r = Ret (Some (outrelfn_of self fname), Some (outfullfn_of self fname))
         ∧ w_warned w' = false)
    ∧ (proc_returncode p ≠ 0 →
         w_warned w' = true
         ∧ ∀ errtext outtext,
             sys_decode (proc_stderr_read p) = Some errtext →
             sys_decode (proc_stdout_read p) = Some outtext →
             r = Raise (DitaaError (exit_message errtext outtext))).
Proof.
  intros Hname Hfile Hwarned Hcode tmp cmd Hpopen Hcomm Hcls Herrno.
  rewrite (communicate_EPIPE_recovered _ _ _ _ _ _ _ _ _
             Hname Hfile Hwarned Hcode Hpopen Hcomm Hcls Herrno).
  fold tmp cmd. unfold exit_check. unfold_actions.
  destruct (Z.eqb_spec (proc_returncode p) 0) as [Hzero|Hnonzero]; simpl.
  - eexists _, _. split; [reflexivity|]. simpl.
    split; [apply lookup_delete_eq|]. split; [done|]. intros Hne. done.
  - destruct (sys_decode (proc_stderr_read p)) as [e|];
      [destruct (sys_decode (proc_stdout_read p)) as [o|]|];
      (eexists _, _; split; [reflexivity|]; simpl;
       split; [apply lookup_delete_eq|]; split; [done|]; intros _;
       split; [reflexivity|]; intros ? ? ? ?; by simplify_eq).
Qed.

(** X20.  An error of [communicate] whose [errno] is neither [EPIPE] nor
    [EINVAL] is fatal for the call, whichever class it belongs to: it is
    raised again, the pipes are not read and the failure flag is not set. *)
Theorem other_communicate_errors_propagate
    self code options prefix w fname code_bytes p err :
  outfname self code options prefix = Some fname →
  w_files w !! outfullfn_of self fname = None →
  w_warned w = false →
  encode_utf8 code = Some code_bytes →
  os_popen (prepared self fname code_bytes w)
    (ditaa_cmd_of self options (temp_of self fname w) (outfullfn_of self fname))
  = Launched p →
  proc_communicate p code_bytes = Raise (EnvironmentExc err) →
  errno err ≠ EPIPE →
  errno err ≠ EINVAL →
  ∃ w',
    render_ditaa self code options prefix w = (Raise (EnvironmentExc err), w')
    ∧ w_warned w' = false
    ∧ w_files w' !! temp_of self fname w = None.
Proof.
  intros Hname Hfile Hwarned Hcode Hpopen Hcomm Hpipe Hinval.
  rewrite (render_ditaa_runs _ _ _ _ _ _ _ Hname Hfile Hwarned Hcode).
  unfold guarded_run. unfold_actions.
  rewrite (launch_step_launched _ _ _ Hpopen).
  rewrite (communicate_other_errno_propagates _ _ _ _ Hcomm Hpipe Hinval).
  eexists. split; [reflexivity|]. simpl.
  split; [exact Hwarned|apply lookup_delete_eq].
Qed.

(** X21.  With the failure flag set and no cached image, a diagram is shown
    as text in HTML and dropped in LaTeX: the HTML visitor writes the
    wrapper around the escaped diagram source, the LaTeX visitor writes
    nothing, and neither launches the tool. *)
Theorem flagged_run_falls_back_to_text
    (self : builder) (node : ditaa) (w : world) (fname : pystr) :
  outfname self (node_code node) (node_options node) (lit "ditaa") = Some fname →
  w_files w !! outfullfn_of self fname = None →
  w_warned w = true →
  html_visit_ditaa self node w
  = (Raise SkipNode,
     add_body [starttag (node_ids node) (node_classes node) (wrapper_of node)
                 (lit "ditaa");
               html_encode (node_code node);
               end_tag (wrapper_of node)] w)
  ∧ latex_visit_ditaa self node w = (Raise SkipNode, w).
Proof.
  intros Hname Hfile Hwarned.
  unfold html_visit_ditaa, latex_visit_ditaa, render_ditaa_html,
    render_ditaa_latex, embed_html.
  unfold_actions.
  rewrite (render_ditaa_skipped _ _ _ _ _ _ Hname Hfile Hwarned).
  split; [|reflexivity]. by rewrite !add_body_add_body.
Qed.

(** X22.  The diagnostic of a failed rendering.  When [communicate] returns
    the two captured streams, the exit code is not 0 and both streams are
    text in the host's encoding, the call sets the failure flag and raises
    a [DitaaError] whose message is the fixed framing around the decoded
    error text and the decoded output text, in that order; both occur in
    it verbatim. *)
Theorem nonzero_exit_decodable_raises_DitaaError
    self code options prefix w fname code_bytes p stdout stderr err out :
  outfname self code options prefix = Some fname →
  w_files w !! outfullfn_of self fname = None →
  w_warned w = false →
  encode_utf8 code = Some code_bytes →
  os_popen (prepared self fname code_bytes w)
    (ditaa_cmd_of self options (temp_of self fname w) (outfullfn_of self fname))
  = Launched p →
  proc_communicate p code_bytes = Ret (stdout, stderr) →
  proc_returncode p ≠ 0 →
  sys_decode stderr = Some err →
  sys_decode stdout = Some out →
  let msg := lit "ditaa exited with error:" ++ NL ++ lit "[stderr]" ++ NL
             ++ err ++ NL ++ lit "[stdout]" ++ NL ++ out in
  ∃ w',
    render_ditaa self code options prefix w = (Raise (DitaaError msg), w')
    ∧ w_warned w' = true
    ∧ w_warnings w' = w_warnings w
    ∧ contains err msg
    ∧ contains out msg.
Proof.
  intros Hname Hfile Hwarned Hcode Hpopen Hcomm Hexit Herr Hout msg.
  rewrite (render_ditaa_runs _ _ _ _ _ _ _ Hname Hfile Hwarned Hcode).
  unfold guarded_run. unfold_actions.
  rewrite (launch_step_launched _ _ _ Hpopen).
  rewrite (communicate_step_returned _ _ _ _ Hcomm).
  unfold drain_step, exit_check. unfold_actions.
  rewrite (proj2 (Z.eqb_neq _ _) Hexit). simpl. rewrite Herr, Hout.
  eexists. split; [reflexivity|]. split; [reflexivity|]. split; [reflexivity|].
  subst msg. split.
  - exists (lit "ditaa exited with error:" ++ NL ++ lit "[stderr]" ++ NL),
           (NL ++ lit "[stdout]" ++ NL ++ out).
    by rewrite <- !app_assoc.
  - exists (lit "ditaa exited with error:" ++ NL ++ lit "[stderr]" ++ NL
            ++ err ++ NL ++ lit "[stdout]" ++ NL), [].
    by rewrite app_nil_r, <- !app_assoc.
Qed.
End Recovery.

(** ** Worked examples on the concrete runtime *)

Import Demo.

(** C2 at work: the image of the diagram is on disk already. *)
Lemma cache_hit_witness :
  let b := builder_with (lit "ditaa") in
  outfname b diagram [] (lit "ditaa") = Some (lit "ditaa-e3.png")
  ∧ is_Some (w_files cached_world !! outfullfn_of b (lit "ditaa-e3.png"))
  ∧ ∃ w',
      render_ditaa b diagram [] (lit "ditaa") cached_world =
      (Ret (Some (path_join (imgpath b) (lit "ditaa-e3.png")),
            Some (path_join (path_join (outdir b) (lit "_images")) (lit "ditaa-e3.png"))),
       w')
      ∧ w' = cached_world
      ∧ w_spawned w' = w_spawned cached_world
      ∧ w_warned w' = w_warned cached_world.
Proof.
  intros b.
  assert (Hname : outfname b diagram [] (lit "ditaa") = Some (lit "ditaa-e3.png"))
    by (vm_compute; reflexivity).
  assert (Hfile : is_Some (w_files cached_world !! outfullfn_of b (lit "ditaa-e3.png")))
    by (vm_compute; eauto).
  split; [exact Hname|]. split; [exact Hfile|].
  exact (cache_hit_returns_immediately b diagram [] (lit "ditaa") cached_world
           (lit "ditaa-e3.png") Hname Hfile).
Defined.

(** C3.  The failure flag does not turn a cache hit into "no output": it
    is not the case that every call made with the flag set returns
    [(None, None)]; a cached image is still returned. *)
Lemma sticky_skip_counterexample :
  ¬ (∀ (self : builder) (code : pystr) (options : list pystr) (prefix : pystr)
       (w : world),
        w_warned w = true →
        (render_ditaa self code options prefix w).1 = Ret (None, None)).
Proof.
  intros Hclaim.
  specialize (Hclaim (builder_with (lit "ditaa")) diagram [] (lit "ditaa")
                (set_warned cached_world) eq_refl).
  vm_compute in Hclaim. discriminate Hclaim.
Qed.

(** C3 at work: a tool that is not installed, a tool that may not be
    executed, and a call made after the flag was set. *)
Lemma tool_not_found_witness :
  (∃ w',
      render_ditaa (builder_with (lit "nothere")) diagram [] (lit "ditaa") empty_world
      = (Ret (None, None), w')
      ∧ w_warned w' = true
      ∧ length (w_warnings w') = 1%nat)
  ∧ (∃ w',
      render_ditaa (builder_with (lit "denied")) diagram [] (lit "ditaa") empty_world
      = (Raise (os_error 13), w')
      ∧ w_warned w' = false
      ∧ w_warnings w' = [])
  ∧ render_ditaa (builder_with (lit "nothere")) diagram [] (lit "ditaa")
      (set_warned empty_world)
    = (Ret (None, None), set_warned empty_world).
Proof.
  destruct (tool_not_found_is_sticky (host:=host) (os:=os)) as (Hfound & Hother & Hsticky).
  split; [|split].
  - destruct (Hfound (builder_with (lit "nothere")) diagram [] (lit "ditaa")
                empty_world (lit "ditaa-d5.png") diagram (os_error ENOENT))
      as (w' & Hr & Hw & Hmsg); try (vm_compute; reflexivity).
    exists w'. split; [exact Hr|]. split; [exact Hw|]. by rewrite Hmsg.
  - destruct (Hother (builder_with (lit "denied")) diagram [] (lit "ditaa")
                empty_world (lit "ditaa-49.png") diagram (os_error 13))
      as (w' & Hr & Hw & Hmsg); try (vm_compute; reflexivity).
    exists w'. split; [exact Hr|]. split; [exact Hw|exact Hmsg].
  - rewrite (Hsticky (builder_with (lit "nothere")) diagram [] (lit "ditaa")
               (set_warned empty_world) (lit "ditaa-d5.png"));
      vm_compute; reflexivity.
Defined.

(** C4 at work: the stub exits with 1 after writing the byte [0xFF] to its
    error stream. *)
Lemma nonzero_exit_undecodable_witness :
  let b := builder_with (lit "ditaa") in
  let node := DitaaNode [] [] diagram [] None None None in
  ∃ w',
    render_ditaa (os:=Cases.garbling_os) b diagram [] (lit "ditaa") empty_world
    = (Raise UnicodeDecodeError, w')
    ∧ w_warned w' = true
    ∧ render_ditaa_html (os:=Cases.garbling_os) b node diagram [] (lit "ditaa")
        None None empty_world
      = (Raise UnicodeDecodeError, w').
Proof.
  intros b node. eexists.
  apply (nonzero_exit_undecodable_output (os:=Cases.garbling_os) b node diagram
           [] (lit "ditaa") None None empty_world (lit "ditaa-e3.png") diagram
           Cases.garbling_tool (lit "rendering") [0xFF]);
    first [ by (vm_compute; reflexivity) | by (vm_compute; discriminate)
          | by (left; vm_compute; reflexivity) ].
Defined.

(** C5 at work: [communicate] fails with [EINVAL] on a Python 3 runtime,
    and the call raises that very error. *)
Lemma communicate_EINVAL_witness :
  let b := builder_with (lit "einval") in
  let f := lit "ditaa-5f.png" in
  let tmp := temp_of b f empty_world in
  let cmd := ditaa_cmd_of b [] tmp (outfullfn_of b f) in
  render_ditaa b diagram [] (lit "ditaa") empty_world =
  (Raise (EnvironmentExc (EnvError true true EINVAL)),
   set_files (delete tmp) (add_spawned cmd (prepared b f diagram empty_world))).
Proof.
  intros b f tmp cmd.
  apply (communicate_EINVAL_propagates b diagram [] (lit "ditaa") empty_world
           f diagram (closing_tool EINVAL) (EnvError true true EINVAL));
    vm_compute; reflexivity.
Defined.

(** The same tool failing with [EPIPE] is recovered from: the message left
    in the pipe reaches the [DitaaError]. *)
Example broken_pipe_recovered :
  (render_ditaa (builder_with (lit "epipe")) diagram [] (lit "ditaa") empty_world).1
  = Raise (DitaaError (exit_message (lit "bad diagram") [])).
Proof. vm_compute. reflexivity. Qed.

(** The four ways out named for the temporary file: success, nonzero exit,
    broken pipe, tool not found.  Each creates [/tmp/tmp0.ditaa] and none
    leaves it behind. *)
Example temp_file_on_each_path :
  Forall (fun tool =>
            let w' := (render_ditaa (builder_with tool) diagram [] (lit "ditaa")
                         empty_world).2 in
            w_temps w' = [lit "/tmp/tmp0.ditaa"]
            ∧ w_files w' !! lit "/tmp/tmp0.ditaa" = None)
    [lit "ditaa"; lit "failing"; lit "epipe"; lit "nothere"].
Proof. repeat constructor; vm_compute; reflexivity. Qed.

(** C7 at work: an inline node whose image is rendered, and a block node
    rendered after the failure flag was set. *)
Lemma html_embedding_witness :
  let b := builder_with (lit "ditaa") in
  let node := DitaaNode [] [] diagram [] None None (Some true) in
  let w1 := (render_ditaa b diagram [] (lit "ditaa") empty_world).2 in
  render_ditaa_html b node diagram [] (lit "ditaa") None None empty_world =
  (Raise SkipNode,
   add_body [lit "<span class=" ++ DQUOTE ++ lit "ditaa" ++ DQUOTE ++ lit ">" ++ NL;
             lit "<img src=" ++ DQUOTE ++ lit "_images/ditaa-e3.png" ++ DQUOTE
             ++ lit "/>" ++ NL;
             lit "</span>" ++ NL] w1).
Proof.
  intros b node w1.
  rewrite (html_embedding_wrapper b node diagram [] (lit "ditaa") None None
             empty_world (Some (lit "_images/ditaa-e3.png"))
             (Some (lit "out/_images/ditaa-e3.png")) w1);
    vm_compute; reflexivity.
Defined.

Example html_embedding_fallback :
  let b := builder_with (lit "ditaa") in
  let node := DitaaNode [] [] (lit "<-->") [] None None (Some false) in
  w_body (html_visit_ditaa b node (set_warned empty_world)).2 =
  [lit "<p class=" ++ DQUOTE ++ lit "ditaa" ++ DQUOTE ++ lit ">" ++ NL;
   lit "&lt;--&gt;";
   lit "</p>" ++ NL].
Proof. vm_compute. reflexivity. Qed.

(** C8 at work. *)
Lemma both_content_and_filename_witness :
  ∃ msg nodes w',
    run both_given empty_world = (Ret nodes, w')
    ∧ nodes = [SystemMessage msg 7]
    ∧ count_diagrams nodes = 0%nat
    ∧ count_warnings nodes = 1%nat
    ∧ w_reported w' = [(msg, 7)].
Proof.
  apply (both_content_and_filename_warns both_given empty_world); discriminate.
Defined.

(** C9 at work: a directive with every option given. *)
Lemma directive_options_witness :
  ∃ n,
    (run inline_diagram empty_world).1 = Ret [Diagram n]
    ∧ node_alt n = Some (lit "a box")
    ∧ node_options n = []
    ∧ ditaa_cmd_of (builder_with (lit "ditaa")) (node_options n)
        (lit "in") (lit "out")
      = [lit "ditaa"; lit "-E"; lit "in"; lit "out"].
Proof.
  set (n := make_node inline_diagram (diagram ++ NL ++ diagram)).
  exists n.
  destruct (directive_nodes_have_no_options inline_diagram empty_world
              [Diagram n] empty_world n) as (Hopts & _ & _ & Hcmd & _).
  - vm_compute. reflexivity.
  - apply list_elem_of_singleton. reflexivity.
  - split; [vm_compute; reflexivity|]. split; [reflexivity|].
    split; [exact Hopts|]. rewrite Hcmd. reflexivity.
Defined.

(** ** Further worked examples *)

(** X1 at work: two boxes that differ in one character. *)
Lemma hashkey_separates_texts_witness :
  let b := builder_with (lit "ditaa") in
  let k1 := diagram ++ lit "[]ditaa['-E']" in
  let k2 := lit "+==+" ++ lit "[]ditaa['-E']" in
  hashkey b diagram [] = Some k1
  ∧ hashkey b (lit "+==+") [] = Some k2
  ∧ k1 ≠ k2.
Proof.
  intros b k1 k2.
  assert (H1 : hashkey b diagram [] = Some k1) by (vm_compute; reflexivity).
  assert (H2 : hashkey b (lit "+==+") [] = Some k2) by (vm_compute; reflexivity).
  split; [exact H1|]. split; [exact H2|].
  apply (hashkey_separates_texts b diagram (lit "+==+") [] k1 k2);
    [discriminate | exact H1 | exact H2].
Defined.

(** X3 at work: a lone surrogate in the diagram. *)
Lemma unencodable_text_witness :
  let b := builder_with (lit "ditaa") in
  let node := DitaaNode [] [] Cases.unencodable [] None None None in
  render_ditaa b Cases.unencodable [] (lit "ditaa") empty_world
  = (Raise UnicodeEncodeError, empty_world)
  ∧ render_ditaa_html b node Cases.unencodable [] (lit "ditaa") None None empty_world
    = (Raise UnicodeEncodeError, empty_world)
  ∧ render_ditaa_latex b node Cases.unencodable [] (lit "ditaa") empty_world
    = (Raise UnicodeEncodeError, empty_world).
Proof.
  intros b node.
  apply (unencodable_text_raises b node Cases.unencodable [] (lit "ditaa")
           None None empty_world).
  reflexivity.
Defined.

(** X4 at work: the tool of the concrete runtime writes the image. *)
Lemma render_success_witness :
  let b := builder_with (lit "ditaa") in
  ∃ w',
    render_ditaa b diagram [] (lit "ditaa") empty_world
    = (Ret (Some (lit "_images/ditaa-e3.png"), Some (lit "out/_images/ditaa-e3.png")),
       w')
    ∧ w_spawned w'
      = [[lit "ditaa"; lit "-E"; lit "/tmp/tmp0.ditaa"; lit "out/_images/ditaa-e3.png"]]
    ∧ w_warned w' = false
    ∧ w_files w' !! outfullfn_of b (lit "ditaa-e3.png") = Some (lit "PNG").
Proof.
  intros b.
  set (f := lit "ditaa-e3.png").
  set (cmd := ditaa_cmd_of b [] (temp_of b f empty_world) (outfullfn_of b f)).
  destruct (render_success b diagram [] (lit "ditaa") empty_world f diagram
              (good_tool cmd) ([], []))
    as (w' & Hr & Hs & Hw & _ & Hf); try (vm_compute; reflexivity).
  exists w'. split; [exact Hr|]. split; [exact Hs|]. split; [exact Hw|].
  etrans; [apply Hf; vm_compute; discriminate | vm_compute; reflexivity].
Defined.

(** A tool that exits with 0 and writes nothing: the paths are returned all
    the same, and no file is there. *)
Example exit_zero_without_output :
  let r := render_ditaa (os:=Cases.silent_os) (builder_with (lit "ditaa"))
             diagram [] (lit "ditaa") empty_world in
  r.1 = Ret (Some (lit "_images/ditaa-e3.png"), Some (lit "out/_images/ditaa-e3.png"))
  ∧ w_files r.2 !! lit "out/_images/ditaa-e3.png" = None.
Proof. vm_compute. split; reflexivity. Qed.

(** X5 at work: the second call is answered from the cache. *)
Lemma render_twice_witness :
  let b := builder_with (lit "ditaa") in
  let w1 := (render_ditaa b diagram [] (lit "ditaa") empty_world).2 in
  render_ditaa b diagram [] (lit "ditaa") w1
  = (Ret (Some (outrelfn_of b (lit "ditaa-e3.png")),
          Some (outfullfn_of b (lit "ditaa-e3.png"))), w1).
Proof.
  intros b.
  set (f := lit "ditaa-e3.png").
  set (cmd := ditaa_cmd_of b [] (temp_of b f empty_world) (outfullfn_of b f)).
  apply (render_twice_is_cache_hit b diagram [] (lit "ditaa") empty_world f
           diagram (good_tool cmd) ([], []));
    first [ by (vm_compute; reflexivity)
          | by (vm_compute; eauto)
          | by (vm_compute; discriminate) ].
Defined.

(** X8 at work: the tool is missing, the call returns "no output" and the
    flag is set. *)
Lemma render_result_shape_witness :
  let b := builder_with (lit "nothere") in
  let w' := (render_ditaa b diagram [] (lit "ditaa") empty_world).2 in
  w_warned w' = true.
Proof.
  intros b w'.
  destruct (render_result_shape b diagram [] (lit "ditaa") empty_world
              None None w') as [(_ & _ & Hflag)|(fname & _ & Ha & _)].
  - vm_compute. reflexivity.
  - exact Hflag.
  - discriminate Ha.
Defined.

(** X9 at work: after the failing stub, the working tool is not tried. *)
Lemma failure_disables_witness :
  let w1 := (render_ditaa (builder_with (lit "failing")) diagram []
               (lit "ditaa") empty_world).2 in
  render_ditaa (builder_with (lit "ditaa")) diagram [] (lit "ditaa") w1
  = (Ret (None, None), w1).
Proof.
  intros w1.
  apply (failure_disables_later_renders
           (builder_with (lit "failing")) diagram [] (lit "ditaa") empty_world
           (lit "ditaa-ba.png") diagram failing_tool
           (lit "rendering", lit "syntax error")
           (builder_with (lit "ditaa")) diagram [] (lit "ditaa")
           (lit "ditaa-e3.png"));
    first [ by (vm_compute; reflexivity) | by (vm_compute; discriminate) ].
Defined.

(** X11 at work: the absolute path goes into the LaTeX body. *)
Lemma latex_embedding_witness :
  let b := builder_with (lit "ditaa") in
  let node := DitaaNode [] [] diagram [] None None None in
  let r := render_ditaa_latex b node diagram [] (lit "ditaa") empty_world in
  r.1 = Raise SkipNode
  ∧ w_body r.2 = [lit "\par\includegraphics{out/_images/ditaa-e3.png}\par"].
Proof.
  intros b node r.
  set (w1 := (render_ditaa b diagram [] (lit "ditaa") empty_world).2).
  destruct (latex_embedding b node diagram [] (lit "ditaa") empty_world
              (Some (lit "_images/ditaa-e3.png"))
              (Some (lit "out/_images/ditaa-e3.png")) w1)
    as [[Ha _]|(fname & Hname & _ & Hlatex)].
  - vm_compute. reflexivity.
  - discriminate Ha.
  - assert (fname = lit "ditaa-e3.png") as ->.
    { vm_compute in Hname. injection Hname as <-. reflexivity. }
    subst r. rewrite Hlatex. split; [reflexivity|]. vm_compute. reflexivity.
Defined.

(** X12 at work: the stub's message becomes a warning. *)
Lemma ditaa_error_witness :
  let b := builder_with (lit "failing") in
  let node := DitaaNode [] [] diagram [] None None None in
  let info := exit_message (lit "syntax error") (lit "rendering") in
  let w1 := (render_ditaa b diagram [] (lit "ditaa") empty_world).2 in
  let w' := add_warning info (add_body (system_message_markup info diagram) w1) in
  render_ditaa_html b node diagram [] (lit "ditaa") None None empty_world
  = (Raise SkipNode, w')
  ∧ render_ditaa_latex b node diagram [] (lit "ditaa") empty_world
    = (Raise SkipNode, w').
Proof.
  intros b node info w1 w'.
  apply (ditaa_error_becomes_warning b node diagram [] (lit "ditaa") None None
           empty_world info w1).
  vm_compute. reflexivity.
Defined.

(** X13 at work: an empty external file still gives a node. *)
Lemma run_external_file_witness :
  ∃ n,
    run Cases.from_file (Cases.world_with_file [])
    = (Ret [Diagram n], add_dependency (lit "box.ditaa") (Cases.world_with_file []))
    ∧ node_code n = []
    ∧ node_alt n = Some (lit "a box").
Proof.
  destruct (run_external_file Cases.from_file (Cases.world_with_file [])
              (lit "box.ditaa") [] [] [])
    as (n & Hrun & Hcode & _ & Halt & _); try (vm_compute; reflexivity).
  exists n. split; [exact Hrun|]. split; [exact Hcode|exact Halt].
Defined.

(** X14 at work: the file is not there. *)
Lemma run_missing_file_witness :
  ∃ msg w',
    run Cases.from_file empty_world = (Ret [SystemMessage msg 3], w')
    ∧ contains (lit "'/doc/box.ditaa'") msg
    ∧ w_dependencies w' = [lit "box.ditaa"].
Proof.
  destruct (run_missing_file Cases.from_file empty_world (lit "box.ditaa") [])
    as (msg & w' & Hrun & Hmsg & _ & Hdep); try (vm_compute; reflexivity).
  exists msg, w'. split; [exact Hrun|]. split; [exact Hmsg|exact Hdep].
Defined.

(** X15 at work: [0xFF] is a byte no UTF-8 text contains. *)
Lemma run_undecodable_file_witness :
  ∃ w',
    run Cases.from_file (Cases.world_with_file [43; 0xFF; 43])
    = (Raise UnicodeDecodeError, w')
    ∧ w_reported w' = [].
Proof.
  apply (run_undecodable_file Cases.from_file
           (Cases.world_with_file [43; 0xFF; 43]) (lit "box.ditaa") []
           [43; 0xFF; 43]);
    vm_compute; reflexivity.
Defined.

(** A file that ends in the middle of a sequence is read without error:
    the directive makes a node from the text before the cut. *)
Example run_truncated_file :
  (run Cases.from_file (Cases.world_with_file [43; 0xC8])).1
  = Ret [Diagram (make_node Cases.from_file [43])].
Proof. vm_compute. reflexivity. Qed.

(** X16 at work: three blank lines, and two lines of diagram. *)
Lemma run_inline_content_witness :
  (∃ msg, run Cases.blank_lines empty_world
          = (Ret [SystemMessage msg 5], add_reported msg 5 empty_world))
  ∧ (∃ n, run inline_diagram empty_world = (Ret [Diagram n], empty_world)
          ∧ node_code n = diagram ++ NL ++ diagram).
Proof.
  split.
  - apply (run_inline_content Cases.blank_lines empty_world); reflexivity.
  - apply (run_inline_content inline_diagram empty_world); reflexivity.
Defined.

(** X17 at work. *)
Lemma run_returns_one_node_witness :
  let r := run Cases.from_file empty_world in
  ∃ nodes, r.1 = Ret nodes
           ∧ length nodes = 1%nat
           ∧ length (w_reported r.2) = count_warnings nodes
           ∧ w_files r.2 = ∅.
Proof.
  intros r.
  assert (Hrun : ∃ nodes, run Cases.from_file empty_world = (Ret nodes, r.2)).
  { eexists. vm_compute. reflexivity. }
  destruct Hrun as [nodes Hrun].
  destruct (run_returns_one_node Cases.from_file empty_world nodes r.2 Hrun)
    as (Hlen & _ & Hrep & Hfiles & _).
  exists nodes. split; [subst r; by rewrite Hrun|].
  split; [exact Hlen|]. split; [exact Hrep|exact Hfiles].
Defined.

(** X18 at work: the directive with [inline] is wrapped in [span]. *)
Lemma directive_options_reach_node_witness :
  let n := make_node inline_diagram (diagram ++ NL ++ diagram) in
  wrapper_of n = lit "span" ∧ node_caption n = Some (lit "Box").
Proof.
  intros n.
  destruct (directive_options_reach_node inline_diagram empty_world
              [Diagram n] empty_world n) as (Hwrap & _ & Hcap & _).
  - vm_compute. reflexivity.
  - apply list_elem_of_singleton. reflexivity.
  - split; [exact Hwrap|exact Hcap].
Defined.

(** X19 at work: the tool closes its input and exits with 1. *)
Lemma broken_pipe_witness :
  let b := builder_with (lit "epipe") in
  ∃ w',
    render_ditaa b diagram [] (lit "ditaa") empty_world
    = (Raise (DitaaError (exit_message (lit "bad diagram") [])), w')
    ∧ w_warned w' = true
    ∧ w_files w' !! lit "/tmp/tmp0.ditaa" = None.
Proof.
  intros b.
  destruct (broken_pipe_is_recovered b diagram [] (lit "ditaa") empty_world
              (lit "ditaa-f3.png") diagram (closing_tool EPIPE)
              (EnvError true true EPIPE))
    as (r & w' & Hr & Hgone & _ & Hfail); try (vm_compute; reflexivity).
  destruct Hfail as [Hflag Hmsg]; [vm_compute; discriminate|].
  rewrite (Hmsg (lit "bad diagram") []) in Hr by (vm_compute; reflexivity).
  exists w'. split; [exact Hr|]. split; [exact Hflag|exact Hgone].
Defined.

(** X20 at work: [communicate] fails with [EIO]. *)
Lemma other_communicate_errors_witness :
  ∃ w',
    render_ditaa (os:=Cases.eio_os) (builder_with (lit "ditaa")) diagram []
      (lit "ditaa") empty_world
    = (Raise (os_error 5), w')
    ∧ w_warned w' = false
    ∧ w_files w' !! lit "/tmp/tmp0.ditaa" = None.
Proof.
  apply (other_communicate_errors_propagate (os:=Cases.eio_os)
           (builder_with (lit "ditaa")) diagram [] (lit "ditaa") empty_world
           (lit "ditaa-e3.png") diagram (closing_tool 5) (EnvError true true 5));
    first [ by (vm_compute; reflexivity) | by (vm_compute; discriminate) ].
Defined.

(** X21 at work: a block diagram after the flag was set. *)
Lemma flagged_run_witness :
  let b := builder_with (lit "ditaa") in
  let node := DitaaNode [] [] (lit "<-->") [] None None (Some false) in
  let w := set_warned empty_world in
  html_visit_ditaa b node w
  = (Raise SkipNode,
     add_body [starttag [] [] (lit "p") (lit "ditaa");
               html_encode (lit "<-->");
               end_tag (lit "p")] w)
  ∧ latex_visit_ditaa b node w = (Raise SkipNode, w).
Proof.
  intros b node w.
  apply (flagged_run_falls_back_to_text b node w (lit "ditaa-07.png"));
    vm_compute; reflexivity.
Defined.

(** X22 at work: the stub writes [syntax error] to its error stream and
    exits with 1; the text is in the message of the raised error. *)
Lemma nonzero_exit_decodable_witness :
  let msg := lit "ditaa exited with error:" ++ NL ++ lit "[stderr]" ++ NL
             ++ lit "syntax error" ++ NL ++ lit "[stdout]" ++ NL
             ++ lit "rendering" in
  ∃ w',
    render_ditaa (builder_with (lit "failing")) diagram [] (lit "ditaa") empty_world
    = (Raise (DitaaError msg), w')
    ∧ w_warned w' = true
    ∧ w_warnings w' = []
    ∧ contains (lit "syntax error") msg
    ∧ contains (lit "rendering") msg.
Proof.
  apply (nonzero_exit_decodable_raises_DitaaError
           (builder_with (lit "failing")) diagram [] (lit "ditaa") empty_world
           (lit "ditaa-ba.png") diagram failing_tool
           (lit "rendering") (lit "syntax error")
           (lit "syntax error") (lit "rendering"));
    first [ by (vm_compute; reflexivity) | by (vm_compute; discriminate) ].
Defined.
